(** * PullzeCheck scoring site: the submission form and the map bar

    A shallow embedding of [src/pages/TeamPage.tsx] (the team-facing
    submission form) and of the [TopBar] component (the map selector).

    The components are React function components.  Their event handlers
    are written here as programs over the commands they issue: React state
    setters, browser calls ([alert], [console.error], [Date.now],
    [URL.createObjectURL]) and the promises they await (the image
    compression library and the storage / database client).  A JS
    [number] is an IEEE 754 binary64 value, that is a primitive [float].

    Conventions.
    - A handler is a function of the cells its render saw (its closure);
      a setter acts on the cells as they are when it is called, so that
      an updater such as [prev => prev + 1] sees the current value.
    - Only an awaited promise and a [throw] statement raise an error; the
      setters and the browser calls return.
    - [run] runs a handler to its end in one go.  [start] and [settle]
      run it turn by turn, as the event loop does: other handlers may
      run between a call and its answer.
    - The browser submits nothing through a disabled submit button
      ([enabled]). *)

From Stdlib Require Import PrimFloat Uint63 ZArith NArith Bool List String Ascii Lia.
From Stdlib Require Import Floats.FloatOps Floats.SpecFloat DecimalString.
From Stdlib Require Floats.FloatAxioms.
From ExtLib Require Import Structures.Monad Structures.MonadExc.
Import ListNotations.
Import MonadNotation.

Local Open Scope string_scope.
Local Open Scope list_scope.
Local Open Scope monad_scope.

Set Implicit Arguments.
Set Warnings "-inexact-float".

(* ================================================================== *)
(** ** JavaScript values                                               *)
(* ================================================================== *)

(** A JS [number]. *)
Abbreviation number := float.

(** A thrown value or the [error] member of a client response. *)
Record JsError : Type := mkError { message : string }.

(** A browser [File]. *)
Record File : Type := mkFile {
  file_name : string;
  file_type : string;
  file_size : N
}.

(** How a promise settles. *)
Inductive Settled (T : Type) : Type :=
| Fulfilled (value : T)
| Rejected (reason : JsError).
Arguments Rejected {T} reason.

(** The builtins whose result depends on the text of a number:
    [Number(s)] on a string, and the conversion of a number inside a
    template literal or a JSX text node. *)
Class JsBuiltins : Type := {
  Number : string -> number;
  ToString : number -> string
}.

(** [isNaN] applied to a number. *)
Definition isNaN (x : number) : bool := PrimFloat.is_nan x.

(** [a === b] on numbers. *)
Definition strict_eq (a b : number) : bool := PrimFloat.eqb a b.

(** Truthiness of a number: [0], [-0] and [NaN] are falsy. *)
Definition truthy (x : number) : bool :=
  negb (PrimFloat.is_zero x || PrimFloat.is_nan x).

(** The number with a given array index as value. *)
Definition of_index (i : nat) : number :=
  PrimFloat.of_uint63 (Uint63.of_Z (Z.of_nat i)).

(** [s.indexOf(t) !== -1]. *)
Definition includes (t s : string) : bool :=
  match String.index 0 t s with
  | Some _ => true
  | None => false
  end.

(** [copy[idx] = v] on a copy of the array.  Past the end JS extends the
    array; a slot that JS would leave empty is an empty string here. *)
Fixpoint array_set (idx : nat) (v : string) (a : list string) : list string :=
  match idx, a with
  | O, [] => [v]
  | O, _ :: rest => v :: rest
  | S i, [] => "" :: array_set i v []
  | S i, x :: rest => x :: array_set i v rest
  end.

(* ================================================================== *)
(** ** The form state and the outbound record                          *)
(* ================================================================== *)

(** The [useState] cells of [TeamPage]. *)
Record State : Type := mkState {
  imageFile : option File;
  imagePreview : string;
  mapNumber : number;
  placement : number;
  playerKills : list string;
  submitting : bool
}.

(** The initial values given to [useState]. *)
Definition initialState : State :=
  {| imageFile := None;
     imagePreview := "";
     mapNumber := 1%float;
     placement := 0%float;
     playerKills := [""; ""; ""];
     submitting := false |}.

(** The object passed to [insert].  An index past the end of [killsNums]
    reads [undefined], written [None]. *)
Module SubmissionRow.
Record t : Type := mk {
  team_id : number;
  map_number : number;
  player1_kills : option number;
  player2_kills : option number;
  player3_kills : option number;
  placement : number;
  scoreboard_image_url : string
}.
End SubmissionRow.

(** The [compressionOptions] object. *)
Record CompressionOptions : Type := mkOptions {
  maxSizeMB : number;
  maxWidthOrHeight : number;
  useWebWorker : bool;
  fileType : string;
  initialQuality : number
}.

(** The argument of a React state setter: a value or an updater. *)
Inductive SetStateAction (T : Type) : Type :=
| Value (v : T)
| Updater (f : T -> T).

Definition apply_action {T : Type} (a : SetStateAction T) (prev : T) : T :=
  match a with
  | Value v => v
  | Updater f => f prev
  end.

(* ================================================================== *)
(** ** Commands and handler programs                                   *)
(* ================================================================== *)

(** What a handler can do, indexed by the type of what it gets back. *)
Inductive Cmd : Type -> Type :=
| SetImageFile (a : option File) : Cmd unit
| SetImagePreview (a : string) : Cmd unit
| SetMapNumber (a : SetStateAction number) : Cmd unit
| SetPlacement (a : number) : Cmd unit
| SetPlayerKills (a : SetStateAction (list string)) : Cmd unit
| SetSubmitting (a : bool) : Cmd unit
| PreventDefault : Cmd unit
| Alert (text : string) : Cmd unit
| ConsoleError (label : string) (error : JsError) : Cmd unit
| DateNow : Cmd number
| CreateObjectURL (file : File) : Cmd string
| ImageCompression (file : File) (options : CompressionOptions)
    : Cmd (Settled File)
| StorageUpload (bucket path : string) (body : File) (upsert : bool)
    : Cmd (Settled (option JsError))
| StorageGetPublicUrl (bucket path : string) : Cmd string
| TableInsert (table : string) (row : SubmissionRow.t)
    : Cmd (Settled (option JsError)).

(** The commands that return a promise; the handlers await each of them. *)
Definition is_promise {R : Type} (c : Cmd R) : bool :=
  match c with
  | ImageCompression _ _ | StorageUpload _ _ _ _ | TableInsert _ _ => true
  | _ => false
  end.

(** A handler body: it returns, throws, or issues a command and goes on
    with the answer. *)
Inductive Prog (A : Type) : Type :=
| Ret (a : A)
| Throw (e : JsError)
| Vis (R : Type) (c : Cmd R) (k : R -> Prog A).
Arguments Throw {A} e.
Arguments Vis {A R} c k.

Fixpoint bindP {A B : Type} (p : Prog A) (f : A -> Prog B) : Prog B :=
  match p with
  | Ret a => f a
  | Throw e => Throw e
  | Vis c k => Vis c (fun r => bindP (k r) f)
  end.

(** [try { body } catch (error) { handler error }]. *)
Fixpoint try_catch {A : Type} (body : Prog A) (handler : JsError -> Prog A)
  : Prog A :=
  match body with
  | Ret a => Ret a
  | Throw e => handler e
  | Vis c k => Vis c (fun r => try_catch (k r) handler)
  end.

(** [try { body } finally { fin }]: [fin] runs on both ways out of
    [body], which then completes as it did. *)
Fixpoint try_finally {A : Type} (body : Prog A) (fin : Prog unit) : Prog A :=
  match body with
  | Ret a => bindP fin (fun _ => Ret a)
  | Throw e => bindP fin (fun _ => Throw e)
  | Vis c k => Vis c (fun r => try_finally (k r) fin)
  end.

#[global] Instance Monad_Prog : Monad Prog :=
  {| ret := @Ret; bind := @bindP |}.

#[global] Instance Exc_Prog : MonadExc JsError Prog :=
  {| raise := @Throw; catch := @try_catch |}.

(** A synchronous call. *)
Definition call {R : Type} (c : Cmd R) : Prog R := Vis c (@Ret R).

(** [await promise]: the value of a fulfilled promise; a rejection is
    thrown at the [await]. *)
Definition await {T : Type} (c : Cmd (Settled T)) : Prog T :=
  Vis c (fun r => match r with
                  | Fulfilled v => Ret v
                  | Rejected e => Throw e
                  end).

(** [for (let i = 0; i < items.length; i++) body(items[i])]. *)
Fixpoint for_each {T : Type} (items : list T) (body : T -> Prog unit)
  : Prog unit :=
  match items with
  | [] => Ret tt
  | item :: rest => bindP (body item) (fun _ => for_each rest body)
  end.

(* ================================================================== *)
(** ** Running a handler                                               *)
(* ================================================================== *)

(** What lies outside the component: the clock, the browser, the
    compression library and the backend client. *)
Record World : Type := mkWorld {
  now : number;
  createObjectURL : File -> string;
  imageCompression : File -> CompressionOptions -> Settled File;
  upload : string -> string -> File -> bool -> Settled (option JsError);
  getPublicUrl : string -> string -> string;
  insert : string -> SubmissionRow.t -> Settled (option JsError)
}.

(** The answer to a command. *)
Definition respond (w : World) {R : Type} (c : Cmd R) : R :=
  match c in Cmd T return T with
  | SetImageFile _ | SetImagePreview _ | SetMapNumber _ | SetPlacement _
  | SetPlayerKills _ | SetSubmitting _ => tt
  | PreventDefault | Alert _ | ConsoleError _ _ => tt
  | DateNow => now w
  | CreateObjectURL f => createObjectURL w f
  | ImageCompression f o => imageCompression w f o
  | StorageUpload b p f u => upload w b p f u
  | StorageGetPublicUrl b p => getPublicUrl w b p
  | TableInsert t r => insert w t r
  end.

(** The effect of a command on the state cells: only setters have one. *)
Definition apply_cmd {R : Type} (c : Cmd R) (s : State) : State :=
  match c with
  | SetImageFile a =>
      mkState a (imagePreview s) (mapNumber s) (placement s)
              (playerKills s) (submitting s)
  | SetImagePreview a =>
      mkState (imageFile s) a (mapNumber s) (placement s)
              (playerKills s) (submitting s)
  | SetMapNumber a =>
      mkState (imageFile s) (imagePreview s) (apply_action a (mapNumber s))
              (placement s) (playerKills s) (submitting s)
  | SetPlacement a =>
      mkState (imageFile s) (imagePreview s) (mapNumber s) a
              (playerKills s) (submitting s)
  | SetPlayerKills a =>
      mkState (imageFile s) (imagePreview s) (mapNumber s) (placement s)
              (apply_action a (playerKills s)) (submitting s)
  | SetSubmitting a =>
      mkState (imageFile s) (imagePreview s) (mapNumber s) (placement s)
              (playerKills s) a
  | _ => s
  end.

(** One entry of the log of a run: a command and its answer. *)
Inductive Event : Type :=
| Ev (R : Type) (c : Cmd R) (r : R).
Arguments Ev {R} c r.

Definition Trace : Type := list Event.

(** How a handler ends. *)
Inductive Completion (A : Type) : Type :=
| Normal (a : A)
| Thrown (e : JsError).
Arguments Thrown {A} e.

(** A handler run to its end, every promise settling as [w] says. *)
Fixpoint run {A : Type} (w : World) (p : Prog A) (s : State)
  : Completion A * State * Trace :=
  match p with
  | Ret a => (Normal a, s, [])
  | Throw e => (Thrown e, s, [])
  | Vis c k =>
      let r := respond w c in
      let '(out, s', tr) := run w (k r) (apply_cmd c s) in
      (out, s', Ev c r :: tr)
  end.

Definition final_state {A : Type} (x : Completion A * State * Trace) : State :=
  snd (fst x).

Definition trace_of {A : Type} (x : Completion A * State * Trace) : Trace :=
  snd x.

(** A handler parked at an [await]: the promise and the rest of the body. *)
Record Task : Type := mkTask {
  task_type : Type;
  task_cmd : Cmd task_type;
  task_cont : task_type -> Prog unit
}.

(** A handler run up to its next [await]: the state and log so far, and
    the parked task when it has not ended. *)
Fixpoint advance (w : World) (p : Prog unit) (s : State)
  : State * Trace * option Task :=
  match p with
  | Ret _ | Throw _ => (s, [], None)
  | Vis c k =>
      if is_promise c then (s, [], Some (mkTask c k))
      else
        let r := respond w c in
        let '(s', tr, t) := advance w (k r) (apply_cmd c s) in
        (s', Ev c r :: tr, t)
  end.

(* ================================================================== *)
(** ** TeamPage: the handlers                                          *)
(* ================================================================== *)

Definition compressionOptions : CompressionOptions :=
  {| maxSizeMB := 0.8%float;
     maxWidthOrHeight := 1920%float;
     useWebWorker := true;
     fileType := "image/jpeg";
     initialQuality := 0.85%float |}.

(** [e.target.files?.[0]]. *)
Definition first_file (files : option (list File)) : option File :=
  match files with
  | Some (file :: _) => Some file
  | _ => None
  end.

(** [handleFileChange]: the [onChange] handler of the file input. *)
Definition handleFileChange (files : option (list File)) : Prog unit :=
  match first_file files with
  | None => ret tt
  | Some file =>
      try_catch
        (compressedFile <- await (ImageCompression file compressionOptions) ;;
         call (SetImageFile (Some compressedFile)) ;;
         url <- call (CreateObjectURL compressedFile) ;;
         call (SetImagePreview url))
        (fun error =>
           call (ConsoleError "Image compression failed:" error) ;;
           call (SetImageFile (Some file)) ;;
           url <- call (CreateObjectURL file) ;;
           call (SetImagePreview url))
  end.

(** [processPastedImage]: the image processing shared by both paste
    handlers. *)
Definition processPastedImage (file : File) : Prog unit :=
  try_catch
    (compressedFile <- await (ImageCompression file compressionOptions) ;;
     call (SetImageFile (Some compressedFile)) ;;
     url <- call (CreateObjectURL compressedFile) ;;
     call (SetImagePreview url))
    (fun error =>
       call (ConsoleError "Paste compression failed:" error) ;;
       call (SetImageFile (Some file)) ;;
       url <- call (CreateObjectURL file) ;;
       call (SetImagePreview url)).

(** A [DataTransferItem] of a paste: its [type] and what [getAsFile()]
    gives. *)
Record DataTransferItem : Type := mkItem {
  item_type : string;
  getAsFile : option File
}.

(** A paste event; [clipboardData] may be null. *)
Record ClipboardEvent : Type := mkPaste {
  clipboardData : option (list DataTransferItem)
}.

(** [handleTextareaPaste]: the [onPaste] handler of the paste area. *)
Definition handleTextareaPaste (e : ClipboardEvent) : Prog unit :=
  match clipboardData e with
  | None => ret tt
  | Some items =>
      for_each items (fun item =>
        if includes "image" (item_type item) then
          match getAsFile item with
          | Some file => call PreventDefault ;; processPastedImage file
          | None => ret tt
          end
        else ret tt)
  end.

(** [handleGlobalPaste]: the [paste] listener on [window].
    [activeIsTextarea] is
    [document.activeElement === pasteTextareaRef.current]. *)
Definition handleGlobalPaste (activeIsTextarea : bool) (e : ClipboardEvent)
  : Prog unit :=
  if activeIsTextarea then ret tt
  else
    match clipboardData e with
    | None => ret tt
    | Some items =>
        for_each items (fun item =>
          if includes "image" (item_type item) then
            match getAsFile item with
            | Some file => processPastedImage file
            | None => ret tt
            end
          else ret tt)
    end.

(** [playerKills.map(k => k === '' ? 0 : Number(k))]. *)
Definition killsNums `{JsBuiltins} (kills : list string) : list number :=
  map (fun k => if String.eqb k "" then 0%float else Number k) kills.

(** [`team${teamId}_map${mapNumber}_${Date.now()}.jpg`]. *)
Definition fileName `{JsBuiltins} (teamId map_ stamp : number) : string :=
  "team" ++ ToString teamId ++ "_map" ++ ToString map_ ++ "_"
         ++ ToString stamp ++ ".jpg".

(** The object literal passed to [insert]. *)
Definition submission_row (teamId : number) (s : State) (nums : list number)
  (imageUrl : string) : SubmissionRow.t :=
  {| SubmissionRow.team_id := teamId;
     SubmissionRow.map_number := mapNumber s;
     SubmissionRow.player1_kills := nth_error nums 0;
     SubmissionRow.player2_kills := nth_error nums 1;
     SubmissionRow.player3_kills := nth_error nums 2;
     SubmissionRow.placement := placement s;
     SubmissionRow.scoreboard_image_url := imageUrl |}.

(** [if (error) throw error]. *)
Definition throw_if (error : option JsError) : Prog unit :=
  match error with
  | Some e => raise e
  | None => ret tt
  end.

(** [handleSubmit]: the [onSubmit] handler of the form, as the render
    that saw the cells [s] built it. *)
Definition handleSubmit `{JsBuiltins} (teamId : number) (s : State)
  : Prog unit :=
  call PreventDefault ;;
  match imageFile s with
  | None => call (Alert "Please upload or paste a scoreboard image.")
  | Some image =>
      let nums := killsNums (playerKills s) in
      if existsb isNaN nums then
        call (Alert "Please enter valid numbers for player kills.")
      else
        call (SetSubmitting true) ;;
        try_finally
          (try_catch
             (stamp <- call DateNow ;;
              let name := fileName teamId (mapNumber s) stamp in
              uploadError <- await (StorageUpload "scoreboards" name image true) ;;
              throw_if uploadError ;;
              imageUrl <- call (StorageGetPublicUrl "scoreboards" name) ;;
              insertError <- await (TableInsert "submissions"
                                      (submission_row teamId s nums imageUrl)) ;;
              throw_if insertError ;;
              call (Alert "Submission uploaded successfully!") ;;
              call (SetMapNumber (Updater (fun prev => prev + 1)%float)) ;;
              call (SetPlacement 0%float) ;;
              call (SetPlayerKills (Value [""; ""; ""])) ;;
              call (SetImageFile None) ;;
              call (SetImagePreview ""))
             (fun error =>
                call (ConsoleError "Submission error:" error) ;;
                call (Alert "Failed to submit. Check console for details.")))
          (call (SetSubmitting false))
  end.

(* ================================================================== *)
(** ** TeamPage: what is rendered                                      *)
(* ================================================================== *)

(** The submit [<button>]. *)
Record SubmitButton : Type := mkSubmitButton {
  disabled : bool;
  caption : string
}.

(** The parts of the rendered form that depend on the cells. *)
Record View : Type := mkView {
  mapNumber_value : number;
  placement_value : option number;
  kills_values : list (option string);
  pastePlaceholder : string;
  preview_src : option string;
  submit_button : SubmitButton
}.

(** The JSX returned by [TeamPage]. *)
Definition render (s : State) : View :=
  {| mapNumber_value := mapNumber s;
     placement_value :=
       if truthy (placement s) then Some (placement s) else None;
     kills_values := map (fun idx => nth_error (playerKills s) idx) [0; 1; 2];
     pastePlaceholder :=
       if String.eqb (imagePreview s) ""
       then "Click here and press Ctrl+V to paste your scoreboard screenshot..."
       else "✓ Image added – Ctrl+V to replace";
     preview_src :=
       if String.eqb (imagePreview s) "" then None else Some (imagePreview s);
     submit_button :=
       {| disabled := submitting s;
          caption := if submitting s then "Submitting..." else "Submit Score" |}
  |}.

(* ================================================================== *)
(** ** TeamPage: the page in the browser                               *)
(* ================================================================== *)

(** What the user can do with the rendered form. *)
Inductive Action : Type :=
| ChangeMapNumber (value : string)
| ChangePlacement (value : string)
| ChangeKills (idx : nat) (value : string)
| ChangeFile (files : option (list File))
| PasteTextarea (e : ClipboardEvent)
| PasteWindow (activeIsTextarea : bool) (e : ClipboardEvent)
| Submit.

(** The handler the render of [s] attached for an action. *)
Definition handler `{JsBuiltins} (teamId : number) (s : State) (a : Action)
  : Prog unit :=
  match a with
  | ChangeMapNumber value => call (SetMapNumber (Value (Number value)))
  | ChangePlacement value => call (SetPlacement (Number value))
  | ChangeKills idx value =>
      call (SetPlayerKills (Updater (array_set idx value)))
  | ChangeFile files => handleFileChange files
  | PasteTextarea e => handleTextareaPaste e
  | PasteWindow active e => handleGlobalPaste active e
  | Submit => handleSubmit teamId s
  end.

(** What the browser lets through: a disabled submit button submits
    nothing, and there are three kill inputs.  A browser holds back more
    (a [required] input left empty blocks the submit event); what is
    shown of every page reachable here holds of the pages it allows. *)
Definition enabled (v : View) (a : Action) : bool :=
  match a with
  | Submit => negb (disabled (submit_button v))
  | ChangeKills idx _ => Nat.ltb idx (List.length (kills_values v))
  | _ => true
  end.

(** The mounted component: its cells and the handlers parked at an
    [await]. *)
Record Page : Type := mkPage {
  cells : State;
  pending : list Task
}.

Definition initialPage : Page := {| cells := initialState; pending := [] |}.

Definition parked (t : option Task) : list Task :=
  match t with
  | Some task => [task]
  | None => []
  end.

(** The user acts on the rendered form: the handler attached by the
    last render runs up to its first [await]. *)
Definition start `{JsBuiltins} (teamId : number) (w : World) (a : Action)
  (pg : Page) : Page :=
  let '(s', _, t) := advance w (handler teamId (cells pg) a) (cells pg) in
  {| cells := s'; pending := pending pg ++ parked t |}.

(** The [i]-th pending promise settles as [w] answers its call, and the
    handler parked on it runs up to its next [await]. *)
Definition settle (w : World) (i : nat) (pg : Page) : Page :=
  match nth_error (pending pg) i with
  | Some t =>
      let '(s', _, t') :=
        advance w (task_cont t (respond w (task_cmd t))) (cells pg) in
      {| cells := s';
         pending := firstn i (pending pg) ++ parked t'
                    ++ skipn (S i) (pending pg) |}
  | None => pg
  end.

(** One turn of the event loop.  The world of a turn is any world: a
    promise may settle in any way, at any time after its call. *)
Inductive step `{JsBuiltins} (teamId : number) : Page -> Page -> Prop :=
| step_action (pg : Page) (a : Action) (w : World) :
    enabled (render (cells pg)) a = true ->
    step teamId pg (start teamId w a pg)
| step_settle (pg : Page) (i : nat) (w : World) :
    i < List.length (pending pg) ->
    step teamId pg (settle w i pg).

Inductive reachable `{JsBuiltins} (teamId : number) : Page -> Prop :=
| reachable_init : reachable teamId initialPage
| reachable_step (pg pg' : Page) :
    reachable teamId pg -> step teamId pg pg' -> reachable teamId pg'.

(** A parked upload or insert: a network operation of a submission. *)
Definition is_network (t : Task) : bool :=
  match task_cmd t with
  | StorageUpload _ _ _ _ | TableInsert _ _ => true
  | _ => false
  end.

Definition in_flight (pg : Page) : nat :=
  List.length (filter is_network (pending pg)).

(* ================================================================== *)
(** ** TopBar                                                          *)
(* ================================================================== *)

(** A rendered map [<button>]; [A] is what the [onSelectMap] callback
    of the parent does. *)
Record MapButton (A : Type) : Type := mkMapButton {
  key : number;
  className : string;
  onClick : unit -> A;
  button_type : string;
  children : string
}.

(** [Array.from({ length: n }, (_, index) => f(index))]. *)
Definition Array_from {T : Type} (n : nat) (f : number -> T) : list T :=
  map (fun i => f (of_index i)) (seq 0 n).

(** The buttons inside [<div className="top-bar">]. *)
Definition TopBar `{JsBuiltins} {A : Type} (selectedMap : number)
  (onSelectMap : number -> A) : list (MapButton A) :=
  Array_from 15 (fun index =>
    let map_ := (index + 1)%float in
    {| key := map_;
       className :=
         "map-button " ++ (if strict_eq selectedMap map_ then "selected" else "");
       onClick := fun _ => onSelectMap map_;
       button_type := "button";
       children := "Map " ++ ToString map_ |}).

(** ASCII whitespace, which separates the class names of an element. *)
Definition is_space (c : ascii) : bool :=
  match nat_of_ascii c with
  | 9 | 10 | 12 | 13 | 32 => true
  | _ => false
  end.

Fixpoint tokens (s : string) (word : string) : list string :=
  match s with
  | EmptyString => if String.eqb word "" then [] else [word]
  | String c rest =>
      if is_space c then
        (if String.eqb word "" then tokens rest "" else word :: tokens rest "")
      else tokens rest (word ++ String c "")
  end.

(** The [classList] of an element with a given [className]. *)
Definition classList (name : string) : list string := tokens name "".

Definition has_class {A : Type} (c : string) (b : MapButton A) : bool :=
  existsb (String.eqb c) (classList (className b)).

(* ================================================================== *)
(** ** TeamPage: the placement options                                 *)
(* ================================================================== *)

(** An [<option>] of the placement select. *)
Record OptionElement : Type := mkOption {
  option_key : number;
  option_value : number;
  option_text : string
}.

(** [i === 1 ? 'st' : i === 2 ? 'nd' : i === 3 ? 'rd' : 'th']. *)
Definition ordinal (i : number) : string :=
  if strict_eq i 1%float then "st"
  else if strict_eq i 2%float then "nd"
  else if strict_eq i 3%float then "rd"
  else "th".

(** The options after the disabled placeholder:
    [Array.from({ length: 16 }, (_, i) => i + 1).map(i => <option ...>)]. *)
Definition placementOptions `{JsBuiltins} : list OptionElement :=
  map (fun i =>
         {| option_key := i;
            option_value := i;
            option_text := ToString i ++ ordinal i |})
      (Array_from 16 (fun i => (i + 1)%float)).

(** What [e.target.value] reads when an option is chosen: the text of
    its [value]. *)
Definition chosen_value `{JsBuiltins} (o : OptionElement) : string :=
  ToString (option_value o).

(* ================================================================== *)
(** ** A runtime to run examples with                                  *)
(* ================================================================== *)

(** The value of a string of decimal digits; [None] for any other
    string. *)
Fixpoint read_digits (s : string) (acc : Z) : option Z :=
  match s with
  | EmptyString => Some acc
  | String c rest =>
      let n := nat_of_ascii c in
      if (Nat.leb 48 n && Nat.leb n 57)%bool
      then read_digits rest (10 * acc + Z.of_nat (n - 48))
      else None
  end.

(** [Number] for the examples.  It agrees with the builtin on the empty
    string and on strings of decimal digits below 2^53; any other string
    is read as [NaN] here, which is what the builtin gives for text such
    as [x]. *)
Definition decimalNumber (s : string) : number :=
  match read_digits s 0 with
  | Some z => PrimFloat.of_uint63 (Uint63.of_Z z)
  | None => PrimFloat.nan
  end.

(** The text of a number, for the examples: it agrees with the builtin
    on the integers below 2^53 in absolute value, on [NaN] and on the
    infinities.  Other numbers get the empty text here. *)
Definition decimalToString (x : number) : string :=
  match Prim2SF x with
  | S754_zero _ => "0"
  | S754_nan => "NaN"
  | S754_infinity sign => if sign then "-Infinity" else "Infinity"
  | S754_finite sign m e =>
      let digits (z : Z) := NilZero.string_of_uint (N.to_uint (Z.to_N z)) in
      let sign_text := if sign then "-" else "" in
      match e with
      | Z0 => sign_text ++ digits (Z.pos m)
      | Zpos _ => ""
      | Zneg k =>
          if Z.eqb (Z.modulo (Z.pos m) (Z.pow 2 (Z.pos k))) 0
          then sign_text ++ digits (Z.div (Z.pos m) (Z.pow 2 (Z.pos k)))
          else ""
      end
  end.

Definition decimalBuiltins : JsBuiltins :=
  {| Number := decimalNumber; ToString := decimalToString |}.

(* ================================================================== *)
(** ** Handlers and the submitting flag                                *)
(* ================================================================== *)

(** How a command bears on a submission: it raises or lowers the
    [submitting] flag, it is a network call of a submission, it is the
    other awaited call (the compression), or none of these. *)
Inductive Role : Type := Raises | Lowers | Network | Compression | Plain.

Definition role {R : Type} (c : Cmd R) : Role :=
  match c with
  | SetSubmitting true => Raises
  | SetSubmitting false => Lowers
  | StorageUpload _ _ _ _ | TableInsert _ _ => Network
  | ImageCompression _ _ => Compression
  | _ => Plain
  end.

(** A body that leaves the flag alone and makes no network call. *)
Fixpoint quiet (p : Prog unit) : Prop :=
  match p with
  | Ret _ | Throw _ => True
  | Vis c k =>
      match role c with
      | Plain | Compression => forall r, quiet (k r)
      | _ => False
      end
  end.

(** The rest of a submission whose flag is up: on every way through it
    the flag is lowered once, after the last network call, and never
    raised; nothing but network calls is awaited before that. *)
Fixpoint closing (p : Prog unit) : Prop :=
  match p with
  | Ret _ | Throw _ => False
  | Vis c k =>
      match role c with
      | Lowers => forall r, quiet (k r)
      | Plain | Network => forall r, closing (k r)
      | Raises | Compression => False
      end
  end.

(** What a parked handler will do when its promise settles. *)
Definition task_ok (t : Task) : Prop :=
  match role (task_cmd t) with
  | Network => forall r, closing (task_cont t r)
  | Compression => forall r, quiet (task_cont t r)
  | _ => False
  end.

(** The parked handlers are as [task_ok] says, and a network call is
    parked exactly when the flag is up. *)
Definition page_ok (pg : Page) : Prop :=
  Forall task_ok (pending pg)
  /\ in_flight pg = if submitting (cells pg) then 1 else 0.

(** A setter argument that keeps three kill inputs three. *)
Definition keeps_three (a : SetStateAction (list string)) : Prop :=
  forall prev, List.length prev = 3 -> List.length (apply_action a prev) = 3.

(** A body whose calls of [setPlayerKills] all keep three kill inputs. *)
Fixpoint kills_safe (p : Prog unit) : Prop :=
  match p with
  | Ret _ | Throw _ => True
  | Vis c k =>
      match c with
      | SetPlayerKills a => keeps_three a
      | _ => True
      end
      /\ forall r, kills_safe (k r)
  end.

(** There are three kill inputs, and the parked handlers keep it so. *)
Definition three_kills (pg : Page) : Prop :=
  List.length (playerKills (cells pg)) = 3
  /\ Forall (fun t => forall r, kills_safe (task_cont t r)) (pending pg).

(* ================================================================== *)
(** ** Reading a log                                                   *)
(* ================================================================== *)

(** The error of a client call, whether the response carried it or the
    promise rejected with it: [handleSubmit] throws it either way. *)
Definition error_of (r : Settled (option JsError)) : option JsError :=
  match r with
  | Fulfilled error => error
  | Rejected e => Some e
  end.

(** The calls to the backend client. *)
Definition is_backend (ev : Event) : bool :=
  match ev with
  | Ev (StorageUpload _ _ _ _) _ => true
  | Ev (StorageGetPublicUrl _ _) _ => true
  | Ev (TableInsert _ _) _ => true
  | Ev _ _ => false
  end.

Definition backend_calls (tr : Trace) : Trace := filter is_backend tr.

(** The rows handed to [insert], each with its table. *)
Fixpoint inserted_rows (tr : Trace) : list (string * SubmissionRow.t) :=
  match tr with
  | [] => []
  | Ev (TableInsert table row) _ :: rest => (table, row) :: inserted_rows rest
  | _ :: rest => inserted_rows rest
  end.

(** The files handed to [upload]. *)
Fixpoint uploaded_files (tr : Trace) : list File :=
  match tr with
  | [] => []
  | Ev (StorageUpload _ _ body _) _ :: rest => body :: uploaded_files rest
  | _ :: rest => uploaded_files rest
  end.

(** The texts shown with [alert]. *)
Fixpoint alerts (tr : Trace) : list string :=
  match tr with
  | [] => []
  | Ev (Alert text) _ :: rest => text :: alerts rest
  | _ :: rest => alerts rest
  end.

(** The calls that set the [submitting] cell. *)
Definition sets_submitting (ev : Event) : bool :=
  match ev with
  | Ev (SetSubmitting _) _ => true
  | Ev _ _ => false
  end.

(** The file [handleFileChange] and [processPastedImage] keep for a
    supplied file: the [try] branch keeps the compressed file, the
    [catch] branch the file itself. *)
Definition kept_image (w : World) (file : File) : File :=
  match imageCompression w file compressionOptions with
  | Fulfilled compressedFile => compressedFile
  | Rejected _ => file
  end.

(** The files a paste handler processes, in order. *)
Definition pasted_images (items : list DataTransferItem) : list File :=
  flat_map (fun item =>
              if includes "image" (item_type item) then
                match getAsFile item with
                | Some file => [file]
                | None => []
                end
              else []) items.

(** What went to [console.error]: the label and the error. *)
Fixpoint console_errors (tr : Trace) : list (string * JsError) :=
  match tr with
  | [] => []
  | Ev (ConsoleError label error) _ :: rest =>
      (label, error) :: console_errors rest
  | _ :: rest => console_errors rest
  end.

(** The files handed to the compression library. *)
Fixpoint compressions (tr : Trace) : list File :=
  match tr with
  | [] => []
  | Ev (ImageCompression file _) _ :: rest => file :: compressions rest
  | _ :: rest => compressions rest
  end.

(** The calls of [upload]: bucket, object path, body and [upsert]. *)
Fixpoint uploads (tr : Trace) : list (string * string * File * bool) :=
  match tr with
  | [] => []
  | Ev (StorageUpload bucket path body upsert) _ :: rest =>
      (bucket, path, body, upsert) :: uploads rest
  | _ :: rest => uploads rest
  end.

(** How many times [preventDefault] was called. *)
Fixpoint prevented (tr : Trace) : nat :=
  match tr with
  | [] => 0
  | Ev PreventDefault _ :: rest => S (prevented rest)
  | _ :: rest => prevented rest
  end.

(** The log of [processPastedImage] on a file: the cells do not bear on
    it. *)
Definition paste_log (w : World) (file : File) : Trace :=
  trace_of (run w (processPastedImage file) initialState).

(** The calls to a React state setter. *)
Definition is_setter (ev : Event) : bool :=
  match ev with
  | Ev (SetImageFile _) _ | Ev (SetImagePreview _) _ | Ev (SetMapNumber _) _
  | Ev (SetPlacement _) _ | Ev (SetPlayerKills _) _ | Ev (SetSubmitting _) _ =>
      true
  | Ev _ _ => false
  end.

(* ================================================================== *)
(** ** Concrete inputs for the examples                                *)
(* ================================================================== *)

Definition screenshot : File := mkFile "scoreboard.png" "image/png" 2400000.

Definition compressed_screenshot : File :=
  mkFile "scoreboard.png" "image/jpeg" 310000.

Definition network_down : JsError := mkError "Failed to fetch".

(** A world in which every service answers without error. *)
Definition good_world : World :=
  {| now := 1700000000000%float;
     createObjectURL := fun f => ("blob:" ++ file_name f)%string;
     imageCompression := fun _ _ => Fulfilled compressed_screenshot;
     upload := fun _ _ _ _ => Fulfilled None;
     getPublicUrl := fun bucket path =>
       ("https://cdn.example/" ++ bucket ++ "/" ++ path)%string;
     insert := fun _ _ => Fulfilled None |}.

(** The same, with a compression library that rejects. *)
Definition no_compression : World :=
  {| now := now good_world;
     createObjectURL := createObjectURL good_world;
     imageCompression := fun _ _ => Rejected (mkError "out of memory");
     upload := upload good_world;
     getPublicUrl := getPublicUrl good_world;
     insert := insert good_world |}.

(** The same as [good_world], with an upload that answers with an error. *)
Definition upload_down : World :=
  {| now := now good_world;
     createObjectURL := createObjectURL good_world;
     imageCompression := imageCompression good_world;
     upload := fun _ _ _ _ => Fulfilled (Some network_down);
     getPublicUrl := getPublicUrl good_world;
     insert := insert good_world |}.

(** The same as [good_world], with an insert whose promise rejects. *)
Definition insert_down : World :=
  {| now := now good_world;
     createObjectURL := createObjectURL good_world;
     imageCompression := imageCompression good_world;
     upload := upload good_world;
     getPublicUrl := getPublicUrl good_world;
     insert := fun _ _ => Rejected network_down |}.

(** A filled form: map 15, second place, kills 3, (empty) and 12. *)
Definition filled_form : State :=
  {| imageFile := Some compressed_screenshot;
     imagePreview := "blob:scoreboard.png";
     mapNumber := 15%float;
     placement := 2%float;
     playerKills := ["3"; ""; "12"];
     submitting := false |}.

(** The same form with a kill count that is no number. *)
Definition mistyped_form : State :=
  {| imageFile := Some compressed_screenshot;
     imagePreview := "blob:scoreboard.png";
     mapNumber := 15%float;
     placement := 2%float;
     playerKills := ["3"; "x"; "12"];
     submitting := false |}.

(** The page while a first file is being compressed, once it is
    compressed, and once submit was pressed on it. *)
Definition picking_page : Page :=
  @start decimalBuiltins 7%float good_world (ChangeFile (Some [screenshot]))
         initialPage.

Definition picked_page : Page := settle good_world 0 picking_page.

Definition submitting_page : Page :=
  @start decimalBuiltins 7%float good_world Submit picked_page.

(** [holds_between I p Q s]: started on the cells [s], the body [p]
    has [I] on the cells whenever it is parked at an [await] or ends by
    a throw, and [Q] when it returns, provided the cells satisfy [I]
    each time it is resumed; the answers of its calls are arbitrary. *)
Fixpoint holds_between (I : State -> Prop) (p : Prog unit)
  (Q : State -> Prop) (s : State) : Prop :=
  match p with
  | Ret _ => Q s
  | Throw _ => I s
  | Vis c k =>
      if is_promise c
      then I s /\ forall r s', I s' -> holds_between I (k r) Q s'
      else forall r, holds_between I (k r) Q (apply_cmd c s)
  end.

(** Without an image file there is no preview. *)
Definition no_stale_preview (s : State) : Prop :=
  imageFile s = None -> imagePreview s = "".

(** The cells satisfy [I], and the parked handlers keep it so. *)
Definition page_keeps (I : State -> Prop) (pg : Page) : Prop :=
  I (cells pg)
  /\ Forall (fun t => forall r s, I s -> holds_between I (task_cont t r) I s)
            (pending pg).

(** The page once the upload and the insert of [submitting_page] have
    answered. *)
Definition submitted_page : Page :=
  settle good_world 0 (settle good_world 0 submitting_page).

Arguments fileName : simpl never.
Arguments killsNums : simpl never.
Arguments submission_row : simpl never.

(* ================================================================== *)
(** ** handleSubmit, path by path                                      *)
(* ================================================================== *)

Section Submit.
Context `{JsBuiltins}.
Variables (w : World) (teamId : number) (s : State).

Let name := fileName teamId (mapNumber s) (now w).
Let nums := killsNums (playerKills s).
Let row := submission_row teamId s nums (getPublicUrl w "scoreboards" name).

Lemma handleSubmit_no_image :
  imageFile s = None ->
  run w (handleSubmit teamId s) s
  = (Normal tt, s,
     [Ev PreventDefault tt;
      Ev (Alert "Please upload or paste a scoreboard image.") tt]).
Proof.
  intros Himg. unfold handleSubmit. rewrite Himg. reflexivity.
Qed.

Lemma handleSubmit_bad_kills (image : File) :
  imageFile s = Some image ->
  existsb isNaN nums = true ->
  run w (handleSubmit teamId s) s
  = (Normal tt, s,
     [Ev PreventDefault tt;
      Ev (Alert "Please enter valid numbers for player kills.") tt]).
Proof.
  intros Himg Hnan. unfold handleSubmit. rewrite Himg. cbv zeta.
  fold nums. rewrite Hnan. reflexivity.
Qed.

Lemma handleSubmit_upload_error (image : File) (e : JsError) :
  imageFile s = Some image ->
  existsb isNaN nums = false ->
  error_of (upload w "scoreboards" name image true) = Some e ->
  run w (handleSubmit teamId s) s
  = (Normal tt,
     mkState (imageFile s) (imagePreview s) (mapNumber s) (placement s)
             (playerKills s) false,
     [Ev PreventDefault tt;
      Ev (SetSubmitting true) tt;
      Ev DateNow (now w);
      Ev (StorageUpload "scoreboards" name image true)
         (upload w "scoreboards" name image true);
      Ev (ConsoleError "Submission error:" e) tt;
      Ev (Alert "Failed to submit. Check console for details.") tt;
      Ev (SetSubmitting false) tt]).
Proof.
  intros Himg Hok Hup. unfold handleSubmit. rewrite Himg. cbv zeta.
  fold nums. rewrite Hok. cbn. fold name. rewrite ?Himg.
  destruct (upload w "scoreboards" name image true) as [[e'|]|e'];
    cbn in Hup; inversion Hup; subst; reflexivity.
Qed.

Lemma handleSubmit_insert_error (image : File) (e : JsError) :
  imageFile s = Some image ->
  existsb isNaN nums = false ->
  error_of (upload w "scoreboards" name image true) = None ->
  error_of (insert w "submissions" row) = Some e ->
  run w (handleSubmit teamId s) s
  = (Normal tt,
     mkState (imageFile s) (imagePreview s) (mapNumber s) (placement s)
             (playerKills s) false,
     [Ev PreventDefault tt;
      Ev (SetSubmitting true) tt;
      Ev DateNow (now w);
      Ev (StorageUpload "scoreboards" name image true) (Fulfilled None);
      Ev (StorageGetPublicUrl "scoreboards" name)
         (getPublicUrl w "scoreboards" name);
      Ev (TableInsert "submissions" row) (insert w "submissions" row);
      Ev (ConsoleError "Submission error:" e) tt;
      Ev (Alert "Failed to submit. Check console for details.") tt;
      Ev (SetSubmitting false) tt]).
Proof.
  intros Himg Hok Hup Hins. unfold handleSubmit. rewrite Himg. cbv zeta.
  fold nums. rewrite Hok. cbn. fold name. rewrite ?Himg.
  destruct (upload w "scoreboards" name image true) as [[e'|]|e'];
    cbn in Hup; try discriminate Hup. cbn. fold row.
  destruct (insert w "submissions" row) as [[e'|]|e'];
    cbn in Hins; inversion Hins; subst; reflexivity.
Qed.

Lemma handleSubmit_success (image : File) :
  imageFile s = Some image ->
  existsb isNaN nums = false ->
  error_of (upload w "scoreboards" name image true) = None ->
  error_of (insert w "submissions" row) = None ->
  run w (handleSubmit teamId s) s
  = (Normal tt,
     mkState None "" (mapNumber s + 1)%float 0%float [""; ""; ""] false,
     [Ev PreventDefault tt;
      Ev (SetSubmitting true) tt;
      Ev DateNow (now w);
      Ev (StorageUpload "scoreboards" name image true) (Fulfilled None);
      Ev (StorageGetPublicUrl "scoreboards" name)
         (getPublicUrl w "scoreboards" name);
      Ev (TableInsert "submissions" row) (Fulfilled None);
      Ev (Alert "Submission uploaded successfully!") tt;
      Ev (SetMapNumber (Updater (fun prev => prev + 1)%float)) tt;
      Ev (SetPlacement 0%float) tt;
      Ev (SetPlayerKills (Value [""; ""; ""])) tt;
      Ev (SetImageFile None) tt;
      Ev (SetImagePreview "") tt;
      Ev (SetSubmitting false) tt]).
Proof.
  intros Himg Hok Hup Hins. unfold handleSubmit. rewrite Himg. cbv zeta.
  fold nums. rewrite Hok. cbn. fold name. rewrite ?Himg.
  destruct (upload w "scoreboards" name image true) as [[e'|]|e'];
    cbn in Hup; try discriminate Hup. cbn. fold row.
  destruct (insert w "submissions" row) as [[e'|]|e'];
    cbn in Hins; try discriminate Hins. reflexivity.
Qed.

End Submit.

(* ================================================================== *)
(** ** The image handlers                                              *)
(* ================================================================== *)

Lemma run_handleFileChange (w : World) (file : File) (rest : list File)
  (s : State) :
  run w (handleFileChange (Some (file :: rest))) s
  = match imageCompression w file compressionOptions with
    | Fulfilled compressedFile =>
        (Normal tt,
         mkState (Some compressedFile) (createObjectURL w compressedFile)
                 (mapNumber s) (placement s) (playerKills s) (submitting s),
         [Ev (ImageCompression file compressionOptions)
             (Fulfilled compressedFile);
          Ev (SetImageFile (Some compressedFile)) tt;
          Ev (CreateObjectURL compressedFile)
             (createObjectURL w compressedFile);
          Ev (SetImagePreview (createObjectURL w compressedFile)) tt])
    | Rejected e =>
        (Normal tt,
         mkState (Some file) (createObjectURL w file)
                 (mapNumber s) (placement s) (playerKills s) (submitting s),
         [Ev (ImageCompression file compressionOptions) (Rejected e);
          Ev (ConsoleError "Image compression failed:" e) tt;
          Ev (SetImageFile (Some file)) tt;
          Ev (CreateObjectURL file) (createObjectURL w file);
          Ev (SetImagePreview (createObjectURL w file)) tt])
    end.
Proof.
  cbn. destruct (imageCompression w file compressionOptions); reflexivity.
Qed.

Lemma run_processPastedImage (w : World) (file : File) (s : State) :
  run w (processPastedImage file) s
  = match imageCompression w file compressionOptions with
    | Fulfilled compressedFile =>
        (Normal tt,
         mkState (Some compressedFile) (createObjectURL w compressedFile)
                 (mapNumber s) (placement s) (playerKills s) (submitting s),
         [Ev (ImageCompression file compressionOptions)
             (Fulfilled compressedFile);
          Ev (SetImageFile (Some compressedFile)) tt;
          Ev (CreateObjectURL compressedFile)
             (createObjectURL w compressedFile);
          Ev (SetImagePreview (createObjectURL w compressedFile)) tt])
    | Rejected e =>
        (Normal tt,
         mkState (Some file) (createObjectURL w file)
                 (mapNumber s) (placement s) (playerKills s) (submitting s),
         [Ev (ImageCompression file compressionOptions) (Rejected e);
          Ev (ConsoleError "Paste compression failed:" e) tt;
          Ev (SetImageFile (Some file)) tt;
          Ev (CreateObjectURL file) (createObjectURL w file);
          Ev (SetImagePreview (createObjectURL w file)) tt])
    end.
Proof.
  cbn. destruct (imageCompression w file compressionOptions); reflexivity.
Qed.

(** A sequence runs its first part, then the rest from where the first
    part left the cells; a throw in the first part skips the rest. *)
Lemma run_bindP {A B : Type} (w : World) (p : Prog A) (f : A -> Prog B)
  (s : State) :
  run w (bindP p f) s
  = match run w p s with
    | (Normal a, s1, tr1) =>
        let '(out, s2, tr2) := run w (f a) s1 in (out, s2, tr1 ++ tr2)
    | (Thrown e, s1, tr1) => (Thrown e, s1, tr1)
    end.
Proof.
  revert s. induction p as [a|e|R c k IH]; intros s; cbn.
  - destruct (run w (f a) s) as [[out s2] tr2]. reflexivity.
  - reflexivity.
  - rewrite IH. destruct (run w (k (respond w c)) (apply_cmd c s))
      as [[[a|e] s1] tr1]; [|reflexivity].
    destruct (run w (f a) s1) as [[out s2] tr2]. reflexivity.
Qed.

(** The image file after a paste loop: the file kept for the last image
    of the paste, or the one before the paste when it has no image. *)
Lemma paste_loop_imageFile (w : World) (prevent : bool)
  (items : list DataTransferItem) (s : State) :
  let body := fun item =>
    if includes "image" (item_type item) then
      match getAsFile item with
      | Some file =>
          if prevent then bindP (call PreventDefault)
                                (fun _ => processPastedImage file)
          else processPastedImage file
      | None => Ret tt
      end
    else Ret tt in
  fst (fst (run w (for_each items body) s)) = Normal tt
  /\ imageFile (final_state (run w (for_each items body) s))
     = match rev (pasted_images items) with
       | file :: _ => Some (kept_image w file)
       | [] => imageFile s
       end.
Proof.
  intros body. revert s.
  induction items as [|item items IH]; intros s; [split; reflexivity|].
  cbn [for_each]. rewrite run_bindP.
  assert (Hbody : exists s1 tr1,
             run w (body item) s = (Normal tt, s1, tr1)
             /\ imageFile s1
                = match (if includes "image" (item_type item) then
                           match getAsFile item with
                           | Some file => [file]
                           | None => []
                           end
                         else []) with
                  | file :: _ => Some (kept_image w file)
                  | [] => imageFile s
                  end).
  { unfold body, kept_image.
    destruct (includes "image" (item_type item));
      [|do 2 eexists; split; reflexivity].
    destruct (getAsFile item) as [file|];
      [|do 2 eexists; split; reflexivity].
    destruct prevent.
    - rewrite run_bindP. cbn [call run respond apply_cmd].
      rewrite run_processPastedImage.
      destruct (imageCompression w file compressionOptions);
        do 2 eexists; split; reflexivity.
    - rewrite run_processPastedImage.
      destruct (imageCompression w file compressionOptions);
        do 2 eexists; split; reflexivity. }
  destruct Hbody as (s1 & tr1 & Hrun & Himg). rewrite Hrun.
  destruct (IH s1) as [Hout Hlast].
  destruct (run w (for_each items body) s1) as [[out s2] tr2] eqn:Hrest.
  cbn in Hout, Hlast |- *. split; [exact Hout|]. unfold final_state in *.
  cbn in Hlast |- *. rewrite Hlast.
  unfold pasted_images. cbn [flat_map]. fold (pasted_images items).
  rewrite rev_app_distr.
  destruct (rev (pasted_images items)) as [|last earlier]; [|reflexivity].
  cbn [app]. rewrite Himg.
  destruct (includes "image" (item_type item)); [|reflexivity].
  destruct (getAsFile item); reflexivity.
Qed.

(** The row of a submission whose upload went through, whatever the
    insert answers. *)
Lemma handleSubmit_inserted `{JsBuiltins} (w : World) (teamId : number)
  (s : State) (image : File) :
  imageFile s = Some image ->
  existsb isNaN (killsNums (playerKills s)) = false ->
  error_of (upload w "scoreboards" (fileName teamId (mapNumber s) (now w))
              image true) = None ->
  inserted_rows (trace_of (run w (handleSubmit teamId s) s))
  = [("submissions",
      submission_row teamId s (killsNums (playerKills s))
        (getPublicUrl w "scoreboards"
           (fileName teamId (mapNumber s) (now w))))].
Proof.
  intros Himg Hok Hup.
  destruct (error_of (insert w "submissions"
              (submission_row teamId s (killsNums (playerKills s))
                 (getPublicUrl w "scoreboards"
                    (fileName teamId (mapNumber s) (now w)))))) as [e|] eqn:Hins.
  - rewrite (handleSubmit_insert_error _ _ _ Himg Hok Hup Hins). reflexivity.
  - rewrite (handleSubmit_success _ _ _ Himg Hok Hup Hins). reflexivity.
Qed.





(* ================================================================== *)
(** ** Runs and turns of the event loop                                *)
(* ================================================================== *)

(** A run to the end is the run up to the first [await], followed by
    the run of the parked rest on the answer of the awaited call: [run]
    is the chain of turns in which nothing happens between a call and
    its answer. *)
Lemma run_advance (w : World) (p : Prog unit) (s : State) :
  match advance w p s with
  | (s1, tr1, None) =>
      final_state (run w p s) = s1 /\ trace_of (run w p s) = tr1
  | (s1, tr1, Some t) =>
      let r := respond w (task_cmd t) in
      final_state (run w p s) = final_state (run w (task_cont t r) s1)
      /\ trace_of (run w p s)
         = tr1 ++ Ev (task_cmd t) r :: trace_of (run w (task_cont t r) s1)
  end.
Proof.
  revert s. induction p as [a|e|R c k IH]; intros s; cbn; auto.
  destruct (is_promise c) eqn:Hpromise; cbn.
  - assert (Hsame : apply_cmd c s = s)
      by (destruct c; cbn in Hpromise |- *; (discriminate || reflexivity)).
    rewrite Hsame.
    destruct (run w (k (respond w c)) s) as [[out s2] tr2]. split; reflexivity.
  - specialize (IH (respond w c) (apply_cmd c s)).
    destruct (advance w (k (respond w c)) (apply_cmd c s)) as [[s1 tr1] [t|]];
      destruct (run w (k (respond w c)) (apply_cmd c s)) as [[out s2] tr2];
      unfold final_state, trace_of in *; cbn in *;
      destruct IH as [Hstate Htrace]; split; congruence.
Qed.

(* ================================================================== *)
(** ** One submission at a time                                        *)
(* ================================================================== *)

Lemma is_network_role (t : Task) :
  is_network t = match role (task_cmd t) with Network => true | _ => false end.
Proof.
  unfold is_network. destruct (task_cmd t) as [| | | | |[|]| | | | | | | | |];
    reflexivity.
Qed.

Lemma quiet_bindP (p : Prog unit) (f : unit -> Prog unit) :
  quiet p -> (forall a, quiet (f a)) -> quiet (bindP p f).
Proof.
  intros Hp Hf. induction p as [a|e|R c k IH]; cbn in *; auto.
  destruct (role c); auto.
Qed.

Lemma quiet_processPastedImage (file : File) : quiet (processPastedImage file).
Proof. cbn. intros [compressedFile|e]; cbn; auto. Qed.

Lemma quiet_handleFileChange (files : option (list File)) :
  quiet (handleFileChange files).
Proof.
  unfold handleFileChange. destruct (first_file files) as [file|]; cbn; auto.
  intros [compressedFile|e]; cbn; auto.
Qed.

Lemma quiet_handleTextareaPaste (e : ClipboardEvent) :
  quiet (handleTextareaPaste e).
Proof.
  unfold handleTextareaPaste. destruct (clipboardData e) as [items|]; cbn; auto.
  induction items as [|item items IH]; cbn; auto.
  apply quiet_bindP; [|intros _; exact IH].
  destruct (includes "image" (item_type item)); cbn; auto.
  destruct (getAsFile item) as [file|]; cbn; auto.
  intros _. apply quiet_processPastedImage.
Qed.

Lemma quiet_handleGlobalPaste (active : bool) (e : ClipboardEvent) :
  quiet (handleGlobalPaste active e).
Proof.
  unfold handleGlobalPaste. destruct active; cbn; auto.
  destruct (clipboardData e) as [items|]; cbn; auto.
  induction items as [|item items IH]; cbn; auto.
  apply quiet_bindP; [|intros _; exact IH].
  destruct (includes "image" (item_type item)); cbn; auto.
  destruct (getAsFile item) as [file|]; cbn; auto.
  apply quiet_processPastedImage.
Qed.

(** A quiet body, run to its next [await], leaves the flag as it was and
    parks, if at all, at the compression. *)
Lemma advance_quiet (w : World) (p : Prog unit) :
  quiet p ->
  forall s,
    submitting (fst (fst (advance w p s))) = submitting s
    /\ match snd (advance w p s) with
       | Some t => task_ok t /\ is_network t = false
       | None => True
       end.
Proof.
  induction p as [a|e|R c k IH]; intros Hq s; cbn in *; auto.
  destruct c as [| | | | |[|]| | | | | | | | |]; cbn in Hq |- *;
    try contradiction;
    try (match goal with
         | |- context [advance w (k ?r) ?s0] =>
             specialize (IH r (Hq r) s0);
             destruct (advance w (k r) s0) as [[s' tr] t]
         end; cbn in *; exact IH).
  split; [reflexivity|]. split; [exact Hq|reflexivity].
Qed.

(** The rest of a submission, run to its next [await] with the flag up:
    either it parks at a network call with the flag still up, or the flag
    is down and no network call is parked. *)
Lemma advance_closing (w : World) (p : Prog unit) :
  closing p ->
  forall s,
    submitting s = true ->
    match snd (advance w p s) with
    | Some t =>
        task_ok t
        /\ submitting (fst (fst (advance w p s))) = is_network t
    | None => submitting (fst (fst (advance w p s))) = false
    end.
Proof.
  induction p as [a|e|R c k IH]; intros Hc s Hup; cbn in *;
    try contradiction.
  destruct c as [| | | | |[|]| | | | | | | | |]; cbn in Hc |- *;
    try contradiction;
    try (match goal with
         | |- context [advance w (k ?r) ?s0] =>
             specialize (IH r (Hc r) s0 Hup);
             destruct (advance w (k r) s0) as [[s' tr] t]
         end; cbn in *; exact IH);
    try (split; [exact Hc|exact Hup]).
  pose proof (advance_quiet w (k tt) (Hc tt)
                (mkState (imageFile s) (imagePreview s) (mapNumber s)
                         (placement s) (playerKills s) false)) as [Hflag Htask].
  destruct (advance w (k tt) _) as [[s' tr] t]. cbn in *.
  destruct t as [t|]; [|exact Hflag].
  destruct Htask as [Hok Hnet]. rewrite Hnet. auto.
Qed.

(** [handleSubmit], started with the flag down: either it returns at
    once with the flag still down, or it raises the flag and parks at
    the upload. *)
Lemma advance_handleSubmit `{JsBuiltins} (w : World) (teamId : number)
  (s s0 : State) :
  submitting s0 = false ->
  match snd (advance w (handleSubmit teamId s) s0) with
  | Some t =>
      task_ok t /\ is_network t = true
      /\ submitting (fst (fst (advance w (handleSubmit teamId s) s0))) = true
  | None =>
      submitting (fst (fst (advance w (handleSubmit teamId s) s0))) = false
  end.
Proof.
  intros Hdown. unfold handleSubmit.
  destruct (imageFile s) as [image|]; [|exact Hdown]. cbv zeta.
  destruct (existsb isNaN (killsNums (playerKills s))); [exact Hdown|].
  cbn. split; [|split; reflexivity].
  unfold task_ok. cbn.
  intros [[e|]|e]; cbn; auto.
  intros url [[e|]|e]; cbn; auto.
Qed.

Lemma quiet_handler `{JsBuiltins} (teamId : number) (s : State) (a : Action) :
  a <> Submit -> quiet (handler teamId s a).
Proof.
  intros Ha. destruct a; cbn; auto.
  - apply quiet_handleFileChange.
  - apply quiet_handleTextareaPaste.
  - apply quiet_handleGlobalPaste.
  - contradiction.
Qed.

Lemma in_flight_app (before after : list Task) :
  List.length (filter is_network (before ++ after))
  = List.length (filter is_network before)
    + List.length (filter is_network after).
Proof. rewrite filter_app, length_app. reflexivity. Qed.

(** A quiet handler started on a page keeps [page_ok]. *)
Lemma start_quiet_page_ok (w : World) (p : Prog unit) (pg : Page) :
  quiet p -> page_ok pg ->
  page_ok (let '(s', _, t) := advance w p (cells pg) in
           {| cells := s'; pending := pending pg ++ parked t |}).
Proof.
  intros Hq [Htasks Hflight]. unfold in_flight in Hflight.
  pose proof (advance_quiet w p Hq (cells pg)) as [Hflag Hpark].
  destruct (advance w p (cells pg)) as [[s' tr] t].
  cbn [fst snd] in Hflag, Hpark. unfold page_ok, in_flight. cbn [cells pending].
  rewrite in_flight_app, Hflag, Hflight.
  destruct t as [t|]; cbn [parked filter List.length].
  - destruct Hpark as [Hok Hnet]. rewrite Hnet. cbn [List.length].
    split; [apply Forall_app; auto|lia].
  - split; [rewrite app_nil_r; exact Htasks|lia].
Qed.

(** Pressing submit while the button is enabled keeps [page_ok]. *)
Lemma start_submit_page_ok `{JsBuiltins} (teamId : number) (w : World)
  (pg : Page) :
  submitting (cells pg) = false -> page_ok pg ->
  page_ok (start teamId w Submit pg).
Proof.
  intros Hdown [Htasks Hflight]. unfold in_flight in Hflight.
  pose proof (advance_handleSubmit w teamId (cells pg) (cells pg) Hdown)
    as Hsub.
  unfold start. cbn [handler].
  destruct (advance w (handleSubmit teamId (cells pg)) (cells pg))
    as [[s' tr] t].
  cbn [fst snd] in Hsub. unfold page_ok, in_flight. cbn [cells pending].
  rewrite in_flight_app, Hflight, Hdown.
  destruct t as [t|]; cbn [parked filter List.length].
  - destruct Hsub as (Hok & Hnet & Hflag). rewrite Hnet, Hflag.
    split; [apply Forall_app; auto|reflexivity].
  - rewrite Hsub, app_nil_r. split; [exact Htasks|reflexivity].
Qed.

Lemma nth_error_firstn_skipn {T : Type} (l : list T) (i : nat) (x : T) :
  nth_error l i = Some x -> l = firstn i l ++ x :: skipn (S i) l.
Proof.
  revert i. induction l as [|y l IH]; intros [|i] Hnth; cbn in *;
    try discriminate.
  - inversion Hnth. reflexivity.
  - f_equal. exact (IH i Hnth).
Qed.

(** A settling promise keeps [page_ok]. *)
Lemma settle_page_ok (w : World) (i : nat) (pg : Page) :
  page_ok pg -> page_ok (settle w i pg).
Proof.
  intros Hpage. unfold settle.
  destruct (nth_error (pending pg) i) as [t|] eqn:Hnth; [|exact Hpage].
  destruct Hpage as [Htasks Hflight]. unfold in_flight in Hflight.
  pose proof (nth_error_firstn_skipn _ _ Hnth) as Hpend.
  remember (firstn i (pending pg)) as before.
  remember (skipn (S i) (pending pg)) as after.
  rewrite Hpend in Htasks, Hflight.
  apply Forall_app in Htasks as [Hbefore Hrest].
  apply Forall_cons_iff in Hrest as [Ht Hafter].
  rewrite in_flight_app in Hflight. cbn [filter] in Hflight.
  rewrite is_network_role in Hflight. unfold task_ok in Ht.
  remember (respond w (task_cmd t)) as r.
  destruct (role (task_cmd t)) eqn:Hrole; try contradiction.
  - cbn [List.length] in Hflight.
    assert (Hup : submitting (cells pg) = true)
      by (destruct (submitting (cells pg)); [reflexivity|lia]).
    rewrite Hup in Hflight.
    pose proof (advance_closing w _ (Ht r) (cells pg) Hup) as Hadv.
    destruct (advance w (task_cont t r) (cells pg)) as [[s' tr] t'].
    cbn [fst snd] in Hadv. unfold page_ok, in_flight. cbn [cells pending].
    rewrite !in_flight_app.
    destruct t' as [t'|]; cbn [parked filter List.length].
    + destruct Hadv as [Hok Hflag]. rewrite Hflag.
      split; [apply Forall_app; split; [|apply Forall_app]; auto|].
      destruct (is_network t'); cbn [List.length]; lia.
    + rewrite Hadv. split; [apply Forall_app; auto|cbn; lia].
  - pose proof (advance_quiet w _ (Ht r) (cells pg)) as [Hflag Hpark].
    destruct (advance w (task_cont t r) (cells pg)) as [[s' tr] t'].
    cbn [fst snd] in Hflag, Hpark. unfold page_ok, in_flight.
    cbn [cells pending].
    rewrite !in_flight_app, Hflag, <- Hflight.
    destruct t' as [t'|]; cbn [parked filter List.length].
    + destruct Hpark as [Hok Hnet]. rewrite Hnet.
      split; [apply Forall_app; split; [|apply Forall_app]; auto|cbn; lia].
    + split; [apply Forall_app; auto|cbn; lia].
Qed.

(** Every turn of the event loop keeps [page_ok]. *)
Lemma step_page_ok `{JsBuiltins} (teamId : number) (pg pg' : Page) :
  step teamId pg pg' -> page_ok pg -> page_ok pg'.
Proof.
  intros Hstep Hpage.
  destruct Hstep as [pg a w Hen|pg i w Hi].
  - assert (Ha : a = Submit \/ a <> Submit)
      by (destruct a; (left; reflexivity) || (right; discriminate)).
    destruct Ha as [->|Ha].
    + cbn [enabled render submit_button disabled] in Hen.
      apply negb_true_iff in Hen.
      exact (start_submit_page_ok teamId w Hen Hpage).
    + exact (@start_quiet_page_ok w _ pg
               (@quiet_handler _ teamId (cells pg) a Ha) Hpage).
  - exact (settle_page_ok w i Hpage).
Qed.

Lemma reachable_page_ok `{JsBuiltins} (teamId : number) (pg : Page) :
  reachable teamId pg -> page_ok pg.
Proof.
  induction 1 as [|pg pg' _ IH Hstep].
  - split; [constructor|reflexivity].
  - exact (step_page_ok Hstep IH).
Qed.

(* ================================================================== *)
(** ** The submission, claim by claim                                  *)
(* ================================================================== *)

(** C1.  A successful submission (the form passes validation, the upload
    and the insert answer without error) writes exactly one record, into
    [submissions].  The record has the seven fields of [SubmissionRow.t]:
    [team_id] is the [teamId] prop, [map_number] and [placement] are the
    cells of the form, the three kill fields are entries 0, 1 and 2 of
    the parsed kill inputs, and [scoreboard_image_url] is the public URL
    of the uploaded file. *)
Theorem handleSubmit_writes_one_record `{JsBuiltins} (w : World)
  (teamId : number) (s : State) (image : File) :
  imageFile s = Some image ->
  existsb isNaN (killsNums (playerKills s)) = false ->
  error_of (upload w "scoreboards" (fileName teamId (mapNumber s) (now w))
              image true) = None ->
  error_of (insert w "submissions"
              (submission_row teamId s (killsNums (playerKills s))
                 (getPublicUrl w "scoreboards"
                    (fileName teamId (mapNumber s) (now w))))) = None ->
  inserted_rows (trace_of (run w (handleSubmit teamId s) s))
  = [("submissions",
      {| SubmissionRow.team_id := teamId;
         SubmissionRow.map_number := mapNumber s;
         SubmissionRow.player1_kills := nth_error (killsNums (playerKills s)) 0;
         SubmissionRow.player2_kills := nth_error (killsNums (playerKills s)) 1;
         SubmissionRow.player3_kills := nth_error (killsNums (playerKills s)) 2;
         SubmissionRow.placement := placement s;
         SubmissionRow.scoreboard_image_url :=
           getPublicUrl w "scoreboards"
             (fileName teamId (mapNumber s) (now w)) |})].
Proof.
  intros Himg Hok Hup Hins.
  rewrite (handleSubmit_success _ _ _ Himg Hok Hup Hins). reflexivity.
Qed.

Lemma handleSubmit_writes_one_record_witness :
  inserted_rows
    (trace_of (run good_world (@handleSubmit decimalBuiltins 7%float filled_form)
                   filled_form))
  = [("submissions",
      {| SubmissionRow.team_id := 7%float;
         SubmissionRow.map_number := 15%float;
         SubmissionRow.player1_kills := Some 3%float;
         SubmissionRow.player2_kills := Some 0%float;
         SubmissionRow.player3_kills := Some 12%float;
         SubmissionRow.placement := 2%float;
         SubmissionRow.scoreboard_image_url :=
           "https://cdn.example/scoreboards/team7_map15_1700000000000.jpg" |})].
Proof.
  exact (@handleSubmit_writes_one_record decimalBuiltins good_world 7%float
           filled_form compressed_screenshot
           eq_refl eq_refl eq_refl eq_refl).
Defined.

(** C2.  The backend calls of a submission, in the order of the log, are
    one of three lists: none (the form failed validation); the upload
    alone, when its answer carried an error or its promise rejected; or
    the upload, then the public URL of the uploaded path, then the
    insert, whose row carries that URL.  So the calls come in the order
    upload, public URL, insert, and no insert follows a failed upload. *)
Theorem handleSubmit_backend_order `{JsBuiltins} (w : World)
  (teamId : number) (s : State) :
  let calls := backend_calls (trace_of (run w (handleSubmit teamId s) s)) in
  let path := fileName teamId (mapNumber s) (now w) in
  let url := getPublicUrl w "scoreboards" path in
  (calls = []
   /\ (imageFile s = None
       \/ existsb isNaN (killsNums (playerKills s)) = true))
  \/ (exists image e,
        imageFile s = Some image
        /\ error_of (upload w "scoreboards" path image true) = Some e
        /\ calls = [Ev (StorageUpload "scoreboards" path image true)
                       (upload w "scoreboards" path image true)])
  \/ (exists image row,
        imageFile s = Some image
        /\ error_of (upload w "scoreboards" path image true) = None
        /\ SubmissionRow.scoreboard_image_url row = url
        /\ calls = [Ev (StorageUpload "scoreboards" path image true)
                       (Fulfilled None);
                    Ev (StorageGetPublicUrl "scoreboards" path) url;
                    Ev (TableInsert "submissions" row)
                       (insert w "submissions" row)]).
Proof.
  intros calls path url. subst calls.
  destruct (imageFile s) as [image|] eqn:Himg.
  2: { left. rewrite (handleSubmit_no_image _ _ _ Himg). auto. }
  destruct (existsb isNaN (killsNums (playerKills s))) eqn:Hok.
  { left. rewrite (handleSubmit_bad_kills _ _ _ Himg Hok). auto. }
  right.
  destruct (error_of (upload w "scoreboards" path image true)) as [e|] eqn:Hup.
  { left. exists image, e.
    rewrite (handleSubmit_upload_error _ _ _ Himg Hok Hup). auto. }
  right.
  exists image, (submission_row teamId s (killsNums (playerKills s)) url).
  split; [reflexivity|]. split; [exact Hup|]. split; [reflexivity|].
  destruct (error_of (insert w "submissions"
              (submission_row teamId s (killsNums (playerKills s)) url)))
    as [e|] eqn:Hins.
  - rewrite (handleSubmit_insert_error _ _ _ Himg Hok Hup Hins). reflexivity.
  - rewrite (handleSubmit_success _ _ _ Himg Hok Hup Hins).
    destruct (insert w "submissions"
                (submission_row teamId s (killsNums (playerKills s)) url))
      as [[e|]|e]; cbn in Hins; try discriminate Hins. reflexivity.
Qed.

(** C5.  When no image file is set, or one of the kill inputs parses to
    NaN, [handleSubmit] shows one alert and returns: the log holds
    [preventDefault] and the alert only, so there is no upload, no
    public URL lookup, no insert and no call of [setSubmitting], and the
    cells are as they were. *)
Theorem handleSubmit_validation_gate `{JsBuiltins} (w : World)
  (teamId : number) (s : State) :
  imageFile s = None \/ existsb isNaN (killsNums (playerKills s)) = true ->
  exists text,
    run w (handleSubmit teamId s) s
    = (Normal tt, s, [Ev PreventDefault tt; Ev (Alert text) tt])
    /\ backend_calls (trace_of (run w (handleSubmit teamId s) s)) = []
    /\ filter sets_submitting (trace_of (run w (handleSubmit teamId s) s)) = [].
Proof.
  intros Hbad.
  destruct (imageFile s) as [image|] eqn:Himg.
  - destruct Hbad as [Hnone|Hnan]; [discriminate Hnone|].
    eexists. rewrite (handleSubmit_bad_kills _ _ _ Himg Hnan).
    repeat split.
  - eexists. rewrite (handleSubmit_no_image _ _ _ Himg). repeat split.
Qed.

Lemma handleSubmit_validation_gate_witness :
  exists text,
    run upload_down (@handleSubmit decimalBuiltins 7%float mistyped_form)
        mistyped_form
    = (Normal tt, mistyped_form, [Ev PreventDefault tt; Ev (Alert text) tt])
    /\ backend_calls
         (trace_of (run upload_down
                        (@handleSubmit decimalBuiltins 7%float mistyped_form)
                        mistyped_form)) = []
    /\ filter sets_submitting
         (trace_of (run upload_down
                        (@handleSubmit decimalBuiltins 7%float mistyped_form)
                        mistyped_form)) = [].
Proof.
  exact (@handleSubmit_validation_gate decimalBuiltins upload_down 7%float
           mistyped_form (or_intror eq_refl)).
Defined.

(** C8.  Each kill input is converted by [k === '' ? 0 : Number(k)]: when
    the three inputs all convert to numbers and the upload goes through,
    the one inserted row has, for player i, the number 0 when the i-th
    input is empty and [Number] of the input otherwise. *)
Theorem handleSubmit_kills_conversion `{JsBuiltins} (w : World)
  (teamId : number) (s : State) (image : File) (k1 k2 k3 : string) :
  imageFile s = Some image ->
  playerKills s = [k1; k2; k3] ->
  existsb isNaN (killsNums [k1; k2; k3]) = false ->
  error_of (upload w "scoreboards" (fileName teamId (mapNumber s) (now w))
              image true) = None ->
  exists row,
    inserted_rows (trace_of (run w (handleSubmit teamId s) s))
    = [("submissions", row)]
    /\ SubmissionRow.player1_kills row
       = Some (if String.eqb k1 "" then 0%float else Number k1)
    /\ SubmissionRow.player2_kills row
       = Some (if String.eqb k2 "" then 0%float else Number k2)
    /\ SubmissionRow.player3_kills row
       = Some (if String.eqb k3 "" then 0%float else Number k3).
Proof.
  intros Himg Hkills Hok Hup. rewrite <- Hkills in Hok.
  eexists. rewrite (handleSubmit_inserted _ _ _ Himg Hok Hup).
  split; [reflexivity|]. rewrite Hkills. repeat split.
Qed.

Lemma handleSubmit_kills_conversion_witness :
  exists row,
    inserted_rows
      (trace_of (run insert_down
                     (@handleSubmit decimalBuiltins 7%float filled_form)
                     filled_form))
    = [("submissions", row)]
    /\ SubmissionRow.player1_kills row = Some 3%float
    /\ SubmissionRow.player2_kills row = Some 0%float
    /\ SubmissionRow.player3_kills row = Some 12%float.
Proof.
  exact (@handleSubmit_kills_conversion decimalBuiltins insert_down 7%float
           filled_form compressed_screenshot "3" "" "12"
           eq_refl eq_refl eq_refl eq_refl).
Defined.

(** C9.  A submission that fails at the upload or at the insert (the
    answer carries an error, or the promise rejects) leaves the image
    file, the preview, the map number, the placement and the kill inputs
    as they were when submit was pressed, and ends with [submitting]
    false; the only setter it calls is [setSubmitting]. *)
Theorem handleSubmit_failure_keeps_form `{JsBuiltins} (w : World)
  (teamId : number) (s : State) (image : File) (e : JsError) :
  imageFile s = Some image ->
  existsb isNaN (killsNums (playerKills s)) = false ->
  error_of (upload w "scoreboards" (fileName teamId (mapNumber s) (now w))
              image true) = Some e
  \/ (error_of (upload w "scoreboards"
                  (fileName teamId (mapNumber s) (now w)) image true) = None
      /\ error_of (insert w "submissions"
                     (submission_row teamId s (killsNums (playerKills s))
                        (getPublicUrl w "scoreboards"
                           (fileName teamId (mapNumber s) (now w)))))
         = Some e) ->
  final_state (run w (handleSubmit teamId s) s)
  = {| imageFile := imageFile s;
       imagePreview := imagePreview s;
       mapNumber := mapNumber s;
       placement := placement s;
       playerKills := playerKills s;
       submitting := false |}
  /\ filter is_setter (trace_of (run w (handleSubmit teamId s) s))
     = [Ev (SetSubmitting true) tt; Ev (SetSubmitting false) tt].
Proof.
  intros Himg Hok [Hup|[Hup Hins]].
  - rewrite (handleSubmit_upload_error _ _ _ Himg Hok Hup). split; reflexivity.
  - rewrite (handleSubmit_insert_error _ _ _ Himg Hok Hup Hins).
    split; reflexivity.
Qed.

Lemma handleSubmit_failure_keeps_form_witness :
  final_state (run upload_down
                   (@handleSubmit decimalBuiltins 7%float filled_form)
                   filled_form)
  = filled_form
  /\ filter is_setter
       (trace_of (run upload_down
                      (@handleSubmit decimalBuiltins 7%float filled_form)
                      filled_form))
     = [Ev (SetSubmitting true) tt; Ev (SetSubmitting false) tt].
Proof.
  exact (@handleSubmit_failure_keeps_form decimalBuiltins upload_down 7%float
           filled_form compressed_screenshot network_down
           eq_refl eq_refl (or_introl eq_refl)).
Defined.

(** C10.  After a successful submission the map number is the one before
    plus one, whatever it was (there is no reset to 1 and no bound at
    15), the placement is 0, the three kill inputs are empty, the image
    file is null and the preview is empty; [submitting] is false. *)
Theorem handleSubmit_success_resets_form `{JsBuiltins} (w : World)
  (teamId : number) (s : State) (image : File) :
  imageFile s = Some image ->
  existsb isNaN (killsNums (playerKills s)) = false ->
  error_of (upload w "scoreboards" (fileName teamId (mapNumber s) (now w))
              image true) = None ->
  error_of (insert w "submissions"
              (submission_row teamId s (killsNums (playerKills s))
                 (getPublicUrl w "scoreboards"
                    (fileName teamId (mapNumber s) (now w))))) = None ->
  final_state (run w (handleSubmit teamId s) s)
  = {| imageFile := None;
       imagePreview := "";
       mapNumber := (mapNumber s + 1)%float;
       placement := 0%float;
       playerKills := [""; ""; ""];
       submitting := false |}.
Proof.
  intros Himg Hok Hup Hins.
  rewrite (handleSubmit_success _ _ _ Himg Hok Hup Hins). reflexivity.
Qed.

Lemma handleSubmit_success_resets_form_witness :
  final_state (run good_world
                   (@handleSubmit decimalBuiltins 7%float filled_form)
                   filled_form)
  = {| imageFile := None;
       imagePreview := "";
       mapNumber := 16%float;
       placement := 0%float;
       playerKills := [""; ""; ""];
       submitting := false |}.
Proof.
  exact (@handleSubmit_success_resets_form decimalBuiltins good_world 7%float
           filled_form compressed_screenshot
           eq_refl eq_refl eq_refl eq_refl).
Defined.

(* ================================================================== *)
(** ** The image that is persisted                                     *)
(* ================================================================== *)

(** The form after a file was picked while the compression library
    rejects. *)
Lemma picked_without_compression :
  final_state (run no_compression (handleFileChange (Some [screenshot]))
                   initialState)
  = {| imageFile := Some screenshot;
       imagePreview := "blob:scoreboard.png";
       mapNumber := 1%float;
       placement := 0%float;
       playerKills := [""; ""; ""];
       submitting := false |}.
Proof. reflexivity. Qed.




(* ================================================================== *)
(** ** Errors of the external calls                                    *)
(* ================================================================== *)

(** C4, as stated, fails: an error thrown by the image compression is
    caught and logged with [console.error], but no alert is shown; the
    handler goes on with the uncompressed file. *)
Lemma compression_error_alert_counterexample :
  run no_compression (handleFileChange (Some [screenshot])) initialState
  = (Normal tt,
     {| imageFile := Some screenshot;
        imagePreview := "blob:scoreboard.png";
        mapNumber := 1%float;
        placement := 0%float;
        playerKills := [""; ""; ""];
        submitting := false |},
     [Ev (ImageCompression screenshot compressionOptions)
         (Rejected (mkError "out of memory"));
      Ev (ConsoleError "Image compression failed:" (mkError "out of memory")) tt;
      Ev (SetImageFile (Some screenshot)) tt;
      Ev (CreateObjectURL screenshot) "blob:scoreboard.png";
      Ev (SetImagePreview "blob:scoreboard.png") tt])
  /\ alerts (trace_of (run no_compression
                           (handleFileChange (Some [screenshot]))
                           initialState)) = [].
Proof. split; reflexivity. Qed.

(** C4, amended.  An error of the upload or of the insert (carried by
    the answer, or a rejection of the promise) is caught in
    [handleSubmit]: the handler returns normally, the error is logged
    once with [console.error] and one alert is shown, and neither call
    is made a second time.  An error thrown by the image compression is
    caught in [handleFileChange] and in [processPastedImage]: it is
    logged once with [console.error], no alert is shown, the compression
    is not called again, and the supplied file is kept uncompressed. *)
Theorem external_errors_caught `{JsBuiltins} (w : World) (teamId : number)
  (s : State) (file : File) (rest : list File) (e : JsError) :
  (imageFile s = Some file ->
   existsb isNaN (killsNums (playerKills s)) = false ->
   error_of (upload w "scoreboards" (fileName teamId (mapNumber s) (now w))
               file true) = Some e
   \/ (error_of (upload w "scoreboards"
                   (fileName teamId (mapNumber s) (now w)) file true) = None
       /\ error_of (insert w "submissions"
                      (submission_row teamId s (killsNums (playerKills s))
                         (getPublicUrl w "scoreboards"
                            (fileName teamId (mapNumber s) (now w)))))
          = Some e) ->
   let r := run w (handleSubmit teamId s) s in
   fst (fst r) = Normal tt
   /\ console_errors (trace_of r) = [("Submission error:", e)]
   /\ alerts (trace_of r) = ["Failed to submit. Check console for details."]
   /\ List.length (uploaded_files (trace_of r)) = 1
   /\ List.length (inserted_rows (trace_of r)) <= 1)
  /\ (imageCompression w file compressionOptions = Rejected e ->
      let r := run w (handleFileChange (Some (file :: rest))) s in
      fst (fst r) = Normal tt
      /\ console_errors (trace_of r) = [("Image compression failed:", e)]
      /\ alerts (trace_of r) = []
      /\ compressions (trace_of r) = [file]
      /\ imageFile (final_state r) = Some file)
  /\ (imageCompression w file compressionOptions = Rejected e ->
      let r := run w (processPastedImage file) s in
      fst (fst r) = Normal tt
      /\ console_errors (trace_of r) = [("Paste compression failed:", e)]
      /\ alerts (trace_of r) = []
      /\ compressions (trace_of r) = [file]
      /\ imageFile (final_state r) = Some file).
Proof.
  split; [|split].
  - intros Himg Hok [Hup|[Hup Hins]] r; subst r.
    + rewrite (handleSubmit_upload_error _ _ _ Himg Hok Hup).
      cbn. repeat split; auto.
    + rewrite (handleSubmit_insert_error _ _ _ Himg Hok Hup Hins).
      cbn. repeat split; auto.
  - intros Hrej r; subst r. rewrite run_handleFileChange, Hrej.
    cbn. repeat split.
  - intros Hrej r; subst r. rewrite run_processPastedImage, Hrej.
    cbn. repeat split.
Qed.

Lemma external_errors_caught_witness :
  (console_errors
     (trace_of (run insert_down
                    (@handleSubmit decimalBuiltins 7%float filled_form)
                    filled_form))
   = [("Submission error:", network_down)]
   /\ alerts
        (trace_of (run insert_down
                       (@handleSubmit decimalBuiltins 7%float filled_form)
                       filled_form))
      = ["Failed to submit. Check console for details."])
  /\ alerts (trace_of (run no_compression
                           (handleFileChange (Some [screenshot]))
                           initialState)) = [].
Proof.
  split.
  - pose proof (proj1
      (@external_errors_caught decimalBuiltins insert_down 7%float
         filled_form compressed_screenshot [] network_down)
      eq_refl eq_refl (or_intror (conj eq_refl eq_refl))) as Hsubmit.
    cbv zeta in Hsubmit.
    exact (conj (proj1 (proj2 Hsubmit)) (proj1 (proj2 (proj2 Hsubmit)))).
  - pose proof (proj1 (proj2
      (@external_errors_caught decimalBuiltins no_compression 7%float
         initialState screenshot [] (mkError "out of memory")))
      eq_refl) as Hpick.
    cbv zeta in Hpick. exact (proj1 (proj2 (proj2 Hpick))).
Defined.

(* ================================================================== *)
(** ** The map bar                                                     *)
(* ================================================================== *)

(** C7.  The bar renders fifteen buttons, for the maps 1 to 15 in
    increasing order.  Clicking the button of map n calls [onSelectMap]
    with n, and a button carries the class [selected] exactly when
    [selectedMap === n]; every button carries [map-button] and reads
    [Map n]. *)
Theorem TopBar_buttons `{JsBuiltins} {A : Type} (selectedMap : number)
  (onSelectMap : number -> A) :
  map (@key A) (TopBar selectedMap onSelectMap)
  = [1; 2; 3; 4; 5; 6; 7; 8; 9; 10; 11; 12; 13; 14; 15]%float
  /\ Forall (fun b =>
               onClick b tt = onSelectMap (key b)
               /\ has_class "selected" b = strict_eq selectedMap (key b)
               /\ has_class "map-button" b = true
               /\ button_type b = "button"
               /\ children b = ("Map " ++ ToString (key b))%string)
            (TopBar selectedMap onSelectMap).
Proof.
  split; [reflexivity|].
  unfold TopBar, Array_from. cbn [map seq].
  repeat (apply Forall_cons || apply Forall_nil);
    (split; [reflexivity|]);
    (split; [|split; [|split; reflexivity]]);
    unfold has_class; cbn [className key];
    match goal with
    | |- context [strict_eq selectedMap ?n] =>
        destruct (strict_eq selectedMap n); reflexivity
    end.
Qed.

(* ================================================================== *)
(** ** One submission in flight                                        *)
(* ================================================================== *)

(** In the log of a submission that passes validation, the flag is
    raised before anything else (after [preventDefault]) and lowered
    last; every backend call lies in between. *)
Lemma handleSubmit_flag_brackets_calls `{JsBuiltins} (w : World)
  (teamId : number) (s : State) (image : File) :
  imageFile s = Some image ->
  existsb isNaN (killsNums (playerKills s)) = false ->
  exists calls,
    trace_of (run w (handleSubmit teamId s) s)
    = Ev PreventDefault tt :: Ev (SetSubmitting true) tt
        :: calls ++ [Ev (SetSubmitting false) tt]
    /\ filter sets_submitting calls = []
    /\ backend_calls calls
       = backend_calls (trace_of (run w (handleSubmit teamId s) s)).
Proof.
  intros Himg Hok.
  destruct (error_of (upload w "scoreboards"
              (fileName teamId (mapNumber s) (now w)) image true))
    as [e|] eqn:Hup.
  { rewrite (handleSubmit_upload_error _ _ _ Himg Hok Hup).
    exists [Ev DateNow (now w);
            Ev (StorageUpload "scoreboards"
                  (fileName teamId (mapNumber s) (now w)) image true)
               (upload w "scoreboards"
                  (fileName teamId (mapNumber s) (now w)) image true);
            Ev (ConsoleError "Submission error:" e) tt;
            Ev (Alert "Failed to submit. Check console for details.") tt].
    repeat split. }
  destruct (error_of (insert w "submissions"
              (submission_row teamId s (killsNums (playerKills s))
                 (getPublicUrl w "scoreboards"
                    (fileName teamId (mapNumber s) (now w)))))) as [e|] eqn:Hins.
  - rewrite (handleSubmit_insert_error _ _ _ Himg Hok Hup Hins).
    eexists (_ :: _ :: _ :: _ :: _ :: _ :: nil). repeat split.
  - rewrite (handleSubmit_success _ _ _ Himg Hok Hup Hins).
    eexists (_ :: _ :: _ :: _ :: _ :: _ :: _ :: _ :: _ :: _ :: nil).
    repeat split.
Qed.

(** C6.  On every page the component can reach, at most one network call
    of a submission is pending, and one is pending exactly when
    [submitting] is true.  The submit button is rendered disabled
    exactly when [submitting] is true, so while a call is pending the
    browser lets no submit through and no second submission starts.  In
    the log of a submission, [setSubmitting(true)] comes before the
    first backend call and [setSubmitting(false)] after the last, on
    success and on failure. *)
Theorem one_submission_in_flight `{JsBuiltins} (teamId : number) (pg : Page) :
  reachable teamId pg ->
  in_flight pg <= 1
  /\ (in_flight pg = 1 <-> submitting (cells pg) = true)
  /\ disabled (submit_button (render (cells pg))) = submitting (cells pg)
  /\ (in_flight pg = 1 -> enabled (render (cells pg)) Submit = false)
  /\ (forall w image,
        imageFile (cells pg) = Some image ->
        existsb isNaN (killsNums (playerKills (cells pg))) = false ->
        exists calls,
          trace_of (run w (handleSubmit teamId (cells pg)) (cells pg))
          = Ev PreventDefault tt :: Ev (SetSubmitting true) tt
              :: calls ++ [Ev (SetSubmitting false) tt]
          /\ filter sets_submitting calls = []
          /\ backend_calls calls
             = backend_calls
                 (trace_of (run w (handleSubmit teamId (cells pg))
                                (cells pg)))).
Proof.
  intros Hreach. destruct (reachable_page_ok Hreach) as [_ Hflight].
  rewrite Hflight.
  destruct (submitting (cells pg)) eqn:Hflag; cbn [enabled render
    submit_button disabled]; rewrite ?Hflag;
    repeat split; auto; try lia; try discriminate;
    intros; eapply handleSubmit_flag_brackets_calls; eassumption.
Qed.

Lemma submitting_page_reachable :
  @reachable decimalBuiltins 7%float submitting_page.
Proof.
  apply reachable_step with (pg := picked_page).
  - apply reachable_step with (pg := picking_page).
    + apply reachable_step with (pg := initialPage).
      * apply reachable_init.
      * apply step_action. reflexivity.
    + apply step_settle. cbn. lia.
  - apply step_action. reflexivity.
Qed.

Lemma one_submission_in_flight_witness :
  in_flight submitting_page = 1
  /\ submitting (cells submitting_page) = true
  /\ enabled (render (cells submitting_page)) Submit = false.
Proof.
  pose proof (@one_submission_in_flight decimalBuiltins 7%float
                submitting_page submitting_page_reachable)
    as (_ & Hiff & _ & Hgate & _).
  split; [reflexivity|]. split; [exact (proj1 Hiff eq_refl)|].
  exact (Hgate eq_refl).
Defined.

(* ================================================================== *)
(** ** Three kill inputs                                               *)
(* ================================================================== *)

Lemma array_set_length (idx : nat) (v : string) (a : list string) :
  idx < List.length a -> List.length (array_set idx v a) = List.length a.
Proof.
  revert idx. induction a as [|x a IH]; intros [|idx] Hidx; cbn in *;
    try lia.
  rewrite IH; lia.
Qed.

Lemma kills_safe_bindP (p : Prog unit) (f : unit -> Prog unit) :
  kills_safe p -> (forall a, kills_safe (f a)) -> kills_safe (bindP p f).
Proof.
  intros Hp Hf. induction p as [a|e|R c k IH]; cbn in *; auto.
  destruct Hp as [Hc Hk]. split; auto.
Qed.

Lemma kills_safe_processPastedImage (file : File) :
  kills_safe (processPastedImage file).
Proof. cbn. split; auto. intros [compressedFile|e]; cbn; intuition. Qed.

Lemma kills_safe_paste_loop (prevent : bool) (items : list DataTransferItem) :
  kills_safe
    (for_each items (fun item =>
       if includes "image" (item_type item) then
         match getAsFile item with
         | Some file =>
             if prevent then bindP (call PreventDefault)
                                   (fun _ => processPastedImage file)
             else processPastedImage file
         | None => Ret tt
         end
       else Ret tt)).
Proof.
  induction items as [|item items IH]; cbn [for_each]; [exact I|].
  apply kills_safe_bindP; [|intros _; exact IH].
  destruct (includes "image" (item_type item)); [|exact I].
  destruct (getAsFile item) as [file|]; [|exact I].
  destruct prevent.
  - apply kills_safe_bindP; [cbn; auto|].
    intros _. apply kills_safe_processPastedImage.
  - apply kills_safe_processPastedImage.
Qed.

Lemma kills_safe_handleSubmit `{JsBuiltins} (teamId : number) (s : State) :
  kills_safe (handleSubmit teamId s).
Proof.
  unfold handleSubmit.
  destruct (imageFile s) as [image|]; [|cbn; intuition]. cbv zeta.
  destruct (existsb isNaN (killsNums (playerKills s))); [cbn; intuition|].
  cbn.
  repeat (match goal with
          | |- True => exact I
          | |- _ /\ _ => split
          | |- keeps_three _ => intros ? _; reflexivity
          | |- forall r : Settled (option JsError), _ => intros [[?|]|?]
          | |- forall _, _ => intro
          end; cbn).
Qed.

Lemma kills_safe_handler `{JsBuiltins} (teamId : number) (s s0 : State)
  (a : Action) :
  List.length (playerKills s0) = 3 ->
  enabled (render s0) a = true ->
  kills_safe (handler teamId s a).
Proof.
  intros Hthree Hen. destruct a; cbn [handler].
  - cbn; auto.
  - cbn; auto.
  - cbn in Hen |- *. apply Nat.leb_le in Hen. split; auto.
    intros prev Hprev. cbn. rewrite array_set_length; lia.
  - unfold handleFileChange. destruct (first_file files) as [file|]; cbn; auto.
    split; auto. intros [compressedFile|e]; cbn; intuition.
  - unfold handleTextareaPaste.
    destruct (clipboardData e) as [items|]; [|exact I].
    exact (kills_safe_paste_loop true items).
  - unfold handleGlobalPaste. destruct activeIsTextarea; [exact I|].
    destruct (clipboardData e) as [items|]; [|exact I].
    exact (kills_safe_paste_loop false items).
  - apply kills_safe_handleSubmit.
Qed.

Lemma advance_kills_safe (w : World) (p : Prog unit) :
  kills_safe p ->
  forall s,
    List.length (playerKills s) = 3 ->
    List.length (playerKills (fst (fst (advance w p s)))) = 3
    /\ match snd (advance w p s) with
       | Some t => forall r, kills_safe (task_cont t r)
       | None => True
       end.
Proof.
  induction p as [a|e|R c k IH]; intros Hsafe s Hthree; cbn in *; auto.
  destruct Hsafe as [Hc Hk].
  destruct c; cbn;
    try (match goal with
         | |- context [advance w (k ?r) ?s0] =>
             specialize (IH r (Hk r) s0);
             destruct (advance w (k r) s0) as [[s' tr] t]
         end; cbn in *; apply IH; auto);
    split; auto.
Qed.

(** On every page the component can reach there are three kill
    inputs. *)
Lemma reachable_three_kills `{JsBuiltins} (teamId : number) (pg : Page) :
  reachable teamId pg -> three_kills pg.
Proof.
  induction 1 as [|pg pg' _ [Hthree Htasks] Hstep].
  - split; [reflexivity|constructor].
  - destruct Hstep as [pg a w Hen|pg i w Hi].
    + pose proof (advance_kills_safe w _
                    (kills_safe_handler teamId (cells pg) (cells pg) a
                       Hthree Hen) (cells pg) Hthree) as [Hlen Hpark].
      unfold start.
      destruct (advance w (handler teamId (cells pg) a) (cells pg))
        as [[s' tr] t].
      cbn [fst snd] in Hlen, Hpark. split; [exact Hlen|].
      cbn [pending]. apply Forall_app. split; [exact Htasks|].
      destruct t as [t|]; constructor; auto.
    + unfold settle.
      destruct (nth_error (pending pg) i) as [t|] eqn:Hnth;
        [|split; assumption].
      pose proof (nth_error_firstn_skipn _ _ Hnth) as Hpend.
      rewrite Hpend in Htasks.
      apply Forall_app in Htasks as [Hbefore Hrest].
      apply Forall_cons_iff in Hrest as [Ht Hafter].
      pose proof (advance_kills_safe w _ (Ht (respond w (task_cmd t)))
                    (cells pg) Hthree) as [Hlen Hpark].
      destruct (advance w (task_cont t (respond w (task_cmd t))) (cells pg))
        as [[s' tr] t'].
      cbn [fst snd] in Hlen, Hpark. split; [exact Hlen|].
      cbn [pending]. apply Forall_app. split; [exact Hbefore|].
      apply Forall_app. split; [|exact Hafter].
      destruct t' as [t'|]; constructor; auto.
Qed.

(** The kill inputs on a reachable page are three strings, so entries
    0, 1 and 2 of [killsNums] exist and the three kill fields of a row
    are numbers, never [undefined]. *)
Theorem playerKills_three_entries `{JsBuiltins} (teamId : number) (pg : Page) :
  reachable teamId pg ->
  exists k1 k2 k3,
    playerKills (cells pg) = [k1; k2; k3]
    /\ kills_values (render (cells pg)) = [Some k1; Some k2; Some k3].
Proof.
  intros Hreach. destruct (reachable_three_kills Hreach) as [Hthree _].
  unfold render. cbn [kills_values map].
  destruct (playerKills (cells pg)) as [|k1 [|k2 [|k3 [|k4 rest]]]];
    try discriminate Hthree.
  exists k1, k2, k3. split; reflexivity.
Qed.

Lemma playerKills_three_entries_witness :
  exists k1 k2 k3,
    playerKills (cells submitting_page) = [k1; k2; k3]
    /\ kills_values (render (cells submitting_page))
       = [Some k1; Some k2; Some k3].
Proof.
  exact (@playerKills_three_entries decimalBuiltins 7%float submitting_page
           submitting_page_reachable).
Defined.

(* ================================================================== *)
(** ** What a submission reads while the form changes                  *)
(* ================================================================== *)

(** A submission pressed on the cells [s] parks at the upload.  When the
    upload answers without error, with the cells now [s2], it parks at
    the insert of a row built from [s], the cells at the press, not from
    [s2].  When the insert answers without error, with the cells now
    [s3], the map number becomes the one of [s3] plus one and the rest
    of the form is reset. *)
Theorem submission_reads_pressed_cells `{JsBuiltins} (w1 w2 w3 : World)
  (teamId : number) (s s2 s3 : State) (image : File) :
  imageFile s = Some image ->
  existsb isNaN (killsNums (playerKills s)) = false ->
  exists k1 k2,
    snd (advance w1 (handleSubmit teamId s) s)
    = Some (mkTask (StorageUpload "scoreboards"
                      (fileName teamId (mapNumber s) (now w1)) image true)
                   k1)
    /\ snd (advance w2 (k1 (Fulfilled None)) s2)
       = Some (mkTask (TableInsert "submissions"
                         (submission_row teamId s (killsNums (playerKills s))
                            (getPublicUrl w2 "scoreboards"
                               (fileName teamId (mapNumber s) (now w1)))))
                      k2)
    /\ fst (fst (advance w3 (k2 (Fulfilled None)) s3))
       = {| imageFile := None;
            imagePreview := "";
            mapNumber := (mapNumber s3 + 1)%float;
            placement := 0%float;
            playerKills := [""; ""; ""];
            submitting := false |}.
Proof.
  intros Himg Hok. unfold handleSubmit. rewrite Himg. cbv zeta. rewrite Hok.
  cbn. do 2 eexists. split; [reflexivity|]. cbn. split; reflexivity.
Qed.

Lemma submission_reads_pressed_cells_witness :
  exists k1 k2,
    snd (advance good_world (@handleSubmit decimalBuiltins 7%float filled_form)
                 filled_form)
    = Some (mkTask (StorageUpload "scoreboards" "team7_map15_1700000000000.jpg"
                      compressed_screenshot true)
                   k1)
    /\ snd (advance good_world (k1 (Fulfilled None)) initialState)
       = Some (mkTask (TableInsert "submissions"
                         {| SubmissionRow.team_id := 7%float;
                            SubmissionRow.map_number := 15%float;
                            SubmissionRow.player1_kills := Some 3%float;
                            SubmissionRow.player2_kills := Some 0%float;
                            SubmissionRow.player3_kills := Some 12%float;
                            SubmissionRow.placement := 2%float;
                            SubmissionRow.scoreboard_image_url :=
                              "https://cdn.example/scoreboards/team7_map15_1700000000000.jpg" |})
                      k2)
    /\ fst (fst (advance good_world (k2 (Fulfilled None)) initialState))
       = {| imageFile := None;
            imagePreview := "";
            mapNumber := 2%float;
            placement := 0%float;
            playerKills := [""; ""; ""];
            submitting := false |}.
Proof.
  exact (@submission_reads_pressed_cells decimalBuiltins
           good_world good_world good_world 7%float
           filled_form initialState initialState compressed_screenshot
           eq_refl eq_refl).
Defined.

(* ================================================================== *)
(** ** No handler lets an error escape                                 *)
(* ================================================================== *)

(** Whatever the compression library and the backend answer, and
    whatever the cells are, each async handler of the form returns: no
    error of an awaited call leaves [handleFileChange],
    [handleTextareaPaste], [handleGlobalPaste] or [handleSubmit] as an
    unhandled rejection. *)
Theorem handlers_complete_normally `{JsBuiltins} (w : World)
  (teamId : number) (s s0 : State) (files : option (list File))
  (e : ClipboardEvent) (active : bool) :
  fst (fst (run w (handleFileChange files) s0)) = Normal tt
  /\ fst (fst (run w (handleTextareaPaste e) s0)) = Normal tt
  /\ fst (fst (run w (handleGlobalPaste active e) s0)) = Normal tt
  /\ fst (fst (run w (handleSubmit teamId s) s0)) = Normal tt.
Proof.
  split; [|split; [|split]].
  - unfold handleFileChange. destruct (first_file files) as [file|];
      [|reflexivity].
    cbn. destruct (imageCompression w file compressionOptions); reflexivity.
  - unfold handleTextareaPaste. destruct (clipboardData e) as [items|];
      [|reflexivity].
    exact (proj1 (paste_loop_imageFile w true items s0)).
  - unfold handleGlobalPaste. destruct active; [reflexivity|].
    destruct (clipboardData e) as [items|]; [|reflexivity].
    exact (proj1 (paste_loop_imageFile w false items s0)).
  - unfold handleSubmit. destruct (imageFile s) as [image|]; [|reflexivity].
    cbv zeta. destruct (existsb isNaN (killsNums (playerKills s)));
      [reflexivity|].
    cbn.
    destruct (upload w "scoreboards" _ image true) as [[e1|]|e1];
      try reflexivity.
    cbn.
    destruct (insert w "submissions" _) as [[e2|]|e2]; reflexivity.
Qed.

(* ================================================================== *)
(** ** One alert for every press of submit                             *)
(* ================================================================== *)

(** Every run of [handleSubmit] shows exactly one alert, and which one
    is decided in this order: no image file; a kill input that is no
    number; an error of the upload; an error of the insert; success. *)
Theorem handleSubmit_shows_one_alert `{JsBuiltins} (w : World)
  (teamId : number) (s : State) :
  alerts (trace_of (run w (handleSubmit teamId s) s))
  = [match imageFile s with
     | None => "Please upload or paste a scoreboard image."
     | Some image =>
         if existsb isNaN (killsNums (playerKills s)) then
           "Please enter valid numbers for player kills."
         else
           match error_of (upload w "scoreboards"
                             (fileName teamId (mapNumber s) (now w))
                             image true),
                 error_of (insert w "submissions"
                             (submission_row teamId s
                                (killsNums (playerKills s))
                                (getPublicUrl w "scoreboards"
                                   (fileName teamId (mapNumber s) (now w)))))
           with
           | None, None => "Submission uploaded successfully!"
           | _, _ => "Failed to submit. Check console for details."
           end
     end].
Proof.
  destruct (imageFile s) as [image|] eqn:Himg.
  2: { rewrite (handleSubmit_no_image _ _ _ Himg). reflexivity. }
  destruct (existsb isNaN (killsNums (playerKills s))) eqn:Hok.
  { rewrite (handleSubmit_bad_kills _ _ _ Himg Hok). reflexivity. }
  destruct (error_of (upload w "scoreboards"
              (fileName teamId (mapNumber s) (now w)) image true))
    as [e1|] eqn:Hup.
  { rewrite (handleSubmit_upload_error _ _ _ Himg Hok Hup). reflexivity. }
  destruct (error_of (insert w "submissions"
              (submission_row teamId s (killsNums (playerKills s))
                 (getPublicUrl w "scoreboards"
                    (fileName teamId (mapNumber s) (now w))))))
    as [e2|] eqn:Hins.
  - rewrite (handleSubmit_insert_error _ _ _ Himg Hok Hup Hins). reflexivity.
  - rewrite (handleSubmit_success _ _ _ Himg Hok Hup Hins). reflexivity.
Qed.

(* ================================================================== *)
(** ** What a paste does                                               *)
(* ================================================================== *)

Lemma run_processPastedImage_kept (w : World) (file : File) (s : State) :
  run w (processPastedImage file) s
  = (Normal tt,
     mkState (Some (kept_image w file))
             (createObjectURL w (kept_image w file))
             (mapNumber s) (placement s) (playerKills s) (submitting s),
     paste_log w file).
Proof.
  unfold paste_log. rewrite !run_processPastedImage. unfold kept_image.
  destruct (imageCompression w file compressionOptions); reflexivity.
Qed.

(** The whole run of a paste loop: one [processPastedImage] for every
    image of the paste, in order, and nothing for the other items. *)
Lemma paste_loop_run (w : World) (prevent : bool)
  (items : list DataTransferItem) (s : State) :
  run w (for_each items (fun item =>
           if includes "image" (item_type item) then
             match getAsFile item with
             | Some file =>
                 if prevent then bindP (call PreventDefault)
                                       (fun _ => processPastedImage file)
                 else processPastedImage file
             | None => Ret tt
             end
           else Ret tt)) s
  = (Normal tt,
     match rev (pasted_images items) with
     | file :: _ =>
         mkState (Some (kept_image w file))
                 (createObjectURL w (kept_image w file))
                 (mapNumber s) (placement s) (playerKills s) (submitting s)
     | [] => s
     end,
     flat_map (fun file =>
                 (if prevent then [Ev PreventDefault tt] else [])
                 ++ paste_log w file)
              (pasted_images items)).
Proof.
  revert s. induction items as [|item items IH]; intros s; [reflexivity|].
  cbn [for_each]. rewrite run_bindP.
  unfold pasted_images. cbn [flat_map]. fold (pasted_images items).
  destruct (includes "image" (item_type item)).
  2: { cbn [run app]. rewrite IH. reflexivity. }
  destruct (getAsFile item) as [file|].
  2: { cbn [run app]. rewrite IH. reflexivity. }
  assert (Hbody :
    run w (if prevent
           then bindP (call PreventDefault) (fun _ => processPastedImage file)
           else processPastedImage file) s
    = (Normal tt,
       mkState (Some (kept_image w file))
               (createObjectURL w (kept_image w file))
               (mapNumber s) (placement s) (playerKills s) (submitting s),
       (if prevent then [Ev PreventDefault tt] else []) ++ paste_log w file)).
  { destruct prevent.
    - rewrite run_bindP. cbn [call run respond apply_cmd].
      rewrite run_processPastedImage_kept. reflexivity.
    - apply run_processPastedImage_kept. }
  rewrite Hbody, IH. cbn [flat_map]. rewrite rev_app_distr.
  destruct (rev (pasted_images items)); reflexivity.
Qed.

Lemma compressions_app (a b : Trace) :
  compressions (a ++ b) = compressions a ++ compressions b.
Proof.
  induction a as [|[R c r] a IH]; [reflexivity|].
  destruct c; cbn; rewrite ?IH; reflexivity.
Qed.

Lemma prevented_app (a b : Trace) :
  prevented (a ++ b) = prevented a + prevented b.
Proof.
  induction a as [|[R c r] a IH]; [reflexivity|].
  destruct c; cbn; rewrite ?IH; reflexivity.
Qed.

Lemma alerts_app (a b : Trace) : alerts (a ++ b) = alerts a ++ alerts b.
Proof.
  induction a as [|[R c r] a IH]; [reflexivity|].
  destruct c; cbn; rewrite ?IH; reflexivity.
Qed.

Lemma paste_log_facts (w : World) (file : File) :
  compressions (paste_log w file) = [file]
  /\ prevented (paste_log w file) = 0
  /\ alerts (paste_log w file) = []
  /\ backend_calls (paste_log w file) = [].
Proof.
  unfold paste_log. rewrite run_processPastedImage.
  destruct (imageCompression w file compressionOptions); repeat split.
Qed.

Lemma paste_trace_facts (w : World) (prevent : bool) (files : list File) :
  let tr := flat_map (fun file =>
                        (if prevent then [Ev PreventDefault tt] else [])
                        ++ paste_log w file) files in
  compressions tr = files
  /\ prevented tr = (if prevent then List.length files else 0)
  /\ alerts tr = []
  /\ backend_calls tr = [].
Proof.
  induction files as [|file files IH]; cbn [flat_map].
  - destruct prevent; repeat split.
  - destruct IH as (Hc & Hp & Ha & Hb).
    destruct (paste_log_facts w file) as (Hc1 & Hp1 & Ha1 & Hb1).
    unfold backend_calls in *.
    rewrite !compressions_app, !prevented_app, !alerts_app, !filter_app.
    rewrite Hc, Hp, Ha, Hb, Hc1, Hp1, Ha1, Hb1.
    destruct prevent; repeat split.
Qed.

Lemma run_handleTextareaPaste (w : World) (e : ClipboardEvent)
  (items : list DataTransferItem) (s : State) :
  clipboardData e = Some items ->
  run w (handleTextareaPaste e) s
  = (Normal tt,
     match rev (pasted_images items) with
     | file :: _ =>
         mkState (Some (kept_image w file))
                 (createObjectURL w (kept_image w file))
                 (mapNumber s) (placement s) (playerKills s) (submitting s)
     | [] => s
     end,
     flat_map (fun file => [Ev PreventDefault tt] ++ paste_log w file)
              (pasted_images items)).
Proof.
  intros Hdata. unfold handleTextareaPaste. rewrite Hdata.
  exact (paste_loop_run w true items s).
Qed.

Lemma run_handleGlobalPaste (w : World) (e : ClipboardEvent)
  (items : list DataTransferItem) (s : State) :
  clipboardData e = Some items ->
  run w (handleGlobalPaste false e) s
  = (Normal tt,
     match rev (pasted_images items) with
     | file :: _ =>
         mkState (Some (kept_image w file))
                 (createObjectURL w (kept_image w file))
                 (mapNumber s) (placement s) (playerKills s) (submitting s)
     | [] => s
     end,
     flat_map (fun file => [] ++ paste_log w file) (pasted_images items)).
Proof.
  intros Hdata. unfold handleGlobalPaste. rewrite Hdata.
  exact (paste_loop_run w false items s).
Qed.



(* ================================================================== *)
(** ** The image and its preview                                       *)
(* ================================================================== *)



(* ================================================================== *)
(** ** Two images in flight                                            *)
(* ================================================================== *)

(** When a second image is picked while the first is still being
    compressed, the form keeps the image whose compression settles
    last: the second one when the promises settle in the order of the
    calls, the first one when the second settles before the first. *)
Theorem last_settled_image_wins `{JsBuiltins} (teamId : number)
  (w1 w2 w3 w4 : World) (pg : Page) (a b : File) (resta restb : list File) :
  pending pg = [] ->
  let both :=
    start teamId w2 (ChangeFile (Some (b :: restb)))
      (start teamId w1 (ChangeFile (Some (a :: resta))) pg) in
  List.length (pending both) = 2
  /\ imageFile (cells both) = imageFile (cells pg)
  /\ imageFile (cells (settle w4 0 (settle w3 0 both)))
     = Some (kept_image w4 b)
  /\ imageFile (cells (settle w4 0 (settle w3 1 both)))
     = Some (kept_image w4 a)
  /\ pending (settle w4 0 (settle w3 1 both)) = [].
Proof.
  destruct pg as [s waiting]. cbn [pending]. intros ->.
  unfold start, settle, kept_image. cbn.
  destruct (imageCompression w3 a compressionOptions),
           (imageCompression w3 b compressionOptions); cbn;
    destruct (imageCompression w4 a compressionOptions),
             (imageCompression w4 b compressionOptions); cbn; repeat split.
Qed.

Lemma last_settled_image_wins_witness :
  imageFile
    (cells (settle no_compression 0
              (settle good_world 1
                 (@start decimalBuiltins 7%float good_world
                    (ChangeFile (Some [compressed_screenshot]))
                    (@start decimalBuiltins 7%float good_world
                       (ChangeFile (Some [screenshot])) initialPage)))))
  = Some screenshot.
Proof.
  exact (proj1 (proj2 (proj2 (proj2
    (@last_settled_image_wins decimalBuiltins 7%float good_world good_world
       good_world no_compression initialPage screenshot compressed_screenshot
       [] [] eq_refl))))).
Defined.

(* ================================================================== *)
(** ** The form after a successful submission                          *)
(* ================================================================== *)

(** After a successful submission the form needs a new image: pressing
    submit again, in any world, is refused with the alert that asks for
    a scoreboard image, and nothing is uploaded or inserted. *)
Theorem resubmit_needs_new_image `{JsBuiltins} (w w' : World)
  (teamId : number) (s : State) (image : File) :
  imageFile s = Some image ->
  existsb isNaN (killsNums (playerKills s)) = false ->
  error_of (upload w "scoreboards" (fileName teamId (mapNumber s) (now w))
              image true) = None ->
  error_of (insert w "submissions"
              (submission_row teamId s (killsNums (playerKills s))
                 (getPublicUrl w "scoreboards"
                    (fileName teamId (mapNumber s) (now w))))) = None ->
  run w' (handleSubmit teamId (final_state (run w (handleSubmit teamId s) s)))
      (final_state (run w (handleSubmit teamId s) s))
  = (Normal tt,
     final_state (run w (handleSubmit teamId s) s),
     [Ev PreventDefault tt;
      Ev (Alert "Please upload or paste a scoreboard image.") tt]).
Proof.
  intros Himg Hok Hup Hins.
  rewrite (handleSubmit_success _ _ _ Himg Hok Hup Hins).
  apply handleSubmit_no_image. reflexivity.
Qed.

Lemma resubmit_needs_new_image_witness :
  alerts
    (trace_of
       (run upload_down
            (@handleSubmit decimalBuiltins 7%float
               (final_state
                  (run good_world
                       (@handleSubmit decimalBuiltins 7%float filled_form)
                       filled_form)))
            (final_state
               (run good_world
                    (@handleSubmit decimalBuiltins 7%float filled_form)
                    filled_form))))
  = ["Please upload or paste a scoreboard image."].
Proof.
  exact (f_equal (fun r => alerts (trace_of r))
    (@resubmit_needs_new_image decimalBuiltins good_world upload_down 7%float
       filled_form compressed_screenshot eq_refl eq_refl eq_refl eq_refl)).
Defined.

(** What the form shows after a successful submission: the next map
    number, the placeholder of the placement select (the placement is
    0, which the select reads as no choice), three empty kill inputs,
    no preview, the invitation to paste, and an enabled button that
    reads [Submit Score]. *)
Theorem form_shown_after_success `{JsBuiltins} (w : World)
  (teamId : number) (s : State) (image : File) :
  imageFile s = Some image ->
  existsb isNaN (killsNums (playerKills s)) = false ->
  error_of (upload w "scoreboards" (fileName teamId (mapNumber s) (now w))
              image true) = None ->
  error_of (insert w "submissions"
              (submission_row teamId s (killsNums (playerKills s))
                 (getPublicUrl w "scoreboards"
                    (fileName teamId (mapNumber s) (now w))))) = None ->
  render (final_state (run w (handleSubmit teamId s) s))
  = {| mapNumber_value := (mapNumber s + 1)%float;
       placement_value := None;
       kills_values := [Some ""; Some ""; Some ""];
       pastePlaceholder :=
         "Click here and press Ctrl+V to paste your scoreboard screenshot...";
       preview_src := None;
       submit_button := {| disabled := false; caption := "Submit Score" |} |}.
Proof.
  intros Himg Hok Hup Hins.
  rewrite (handleSubmit_success _ _ _ Himg Hok Hup Hins). reflexivity.
Qed.

Lemma form_shown_after_success_witness :
  placement_value
    (render (final_state
               (run good_world
                    (@handleSubmit decimalBuiltins 7%float filled_form)
                    filled_form)))
  = None
  /\ placement_value (render filled_form) = Some 2%float.
Proof.
  split; [|reflexivity].
  exact (f_equal placement_value
    (@form_shown_after_success decimalBuiltins good_world 7%float
       filled_form compressed_screenshot eq_refl eq_refl eq_refl eq_refl)).
Defined.

(* ================================================================== *)
(** ** Editing a kill input                                            *)
(* ================================================================== *)

Lemma nth_error_array_set_same (idx : nat) (v : string) (a : list string) :
  nth_error (array_set idx v a) idx = Some v.
Proof.
  revert a. induction idx as [|idx IH]; intros [|x a]; cbn; auto.
Qed.

Lemma nth_error_array_set_other (idx j : nat) (v : string)
  (a : list string) :
  j <> idx -> j < List.length a ->
  nth_error (array_set idx v a) j = nth_error a j.
Proof.
  revert j a. induction idx as [|idx IH]; intros [|j] [|x a] Hj Hlen;
    cbn in *; try lia; try reflexivity.
  apply IH; lia.
Qed.

(** Typing [value] into the kill input [idx] replaces entry [idx] of
    [playerKills] and no other: the other entries, the number of
    entries and the other cells stay, and the input then shows what was
    typed. *)
Theorem kill_input_edit `{JsBuiltins} (w : World) (teamId : number)
  (s : State) (idx : nat) (value : string) :
  idx < List.length (playerKills s) ->
  let s' := final_state (run w (handler teamId s (ChangeKills idx value)) s) in
  nth_error (playerKills s') idx = Some value
  /\ (forall j, j <> idx -> nth_error (playerKills s') j
                            = nth_error (playerKills s) j)
  /\ List.length (playerKills s') = List.length (playerKills s)
  /\ (idx < 3 -> nth_error (kills_values (render s')) idx
                 = Some (Some value))
  /\ imageFile s' = imageFile s /\ imagePreview s' = imagePreview s
  /\ mapNumber s' = mapNumber s /\ placement s' = placement s
  /\ submitting s' = submitting s.
Proof.
  intros Hidx s'. subst s'. cbn.
  split; [apply nth_error_array_set_same|].
  split.
  { intros j Hj. destruct (Nat.lt_ge_cases j (List.length (playerKills s)))
      as [Hin|Hout].
    - apply nth_error_array_set_other; assumption.
    - rewrite (proj2 (nth_error_None _ _) Hout).
      apply nth_error_None. rewrite array_set_length; assumption. }
  split; [apply array_set_length; assumption|].
  split; [|repeat split].
  intros Hthree.
  destruct idx as [|[|[|idx]]]; try lia.
  - exact (f_equal Some (nth_error_array_set_same 0 value (playerKills s))).
  - exact (f_equal Some (nth_error_array_set_same 1 value (playerKills s))).
  - exact (f_equal Some (nth_error_array_set_same 2 value (playerKills s))).
Qed.

Lemma kill_input_edit_witness :
  nth_error
    (playerKills
       (final_state (run good_world
                         (@handler decimalBuiltins 7%float filled_form
                                   (ChangeKills 1 "4"))
                         filled_form))) 1
  = Some "4".
Proof.
  exact (proj1 (@kill_input_edit decimalBuiltins good_world 7%float
                  filled_form 1 "4" (le_S 2 2 (le_n 2)))).
Defined.

(* ================================================================== *)
(** ** The map bar selects at most one map                             *)
(* ================================================================== *)

(** [x === n] for a positive finite [n] makes [x] the number [n]. *)
Lemma strict_eq_finite (x n : number) (m : positive) (e : Z) :
  Prim2SF n = S754_finite false m e -> strict_eq x n = true -> x = n.
Proof.
  unfold strict_eq. rewrite FloatAxioms.eqb_spec. intros Hn Heq.
  rewrite Hn in Heq. unfold SFeqb in Heq.
  destruct (Prim2SF x) as [sx|sx| |sx mx ex] eqn:Hx; cbn in Heq;
    try discriminate; try (destruct sx; discriminate).
  destruct sx; [discriminate|].
  destruct (Z.compare ex e) eqn:He; try discriminate.
  destruct (Pos.compare_cont Eq mx m) eqn:Hm; try discriminate.
  apply Z.compare_eq in He. apply Pos.compare_eq in Hm. subst ex mx.
  rewrite <- (FloatAxioms.SF2Prim_Prim2SF x), <- (FloatAxioms.SF2Prim_Prim2SF n).
  rewrite Hx, Hn. reflexivity.
Qed.

Lemma TopBar_as_map `{JsBuiltins} {A : Type} (selectedMap : number)
  (onSelectMap : number -> A) :
  TopBar selectedMap onSelectMap
  = map (fun n =>
           {| key := n;
              className :=
                "map-button "
                ++ (if strict_eq selectedMap n then "selected" else "");
              onClick := fun _ => onSelectMap n;
              button_type := "button";
              children := "Map " ++ ToString n |})
        [1; 2; 3; 4; 5; 6; 7; 8; 9; 10; 11; 12; 13; 14; 15]%float.
Proof. reflexivity. Qed.

Lemma filter_map_pointwise {T U : Type} (f : T -> U) (p : U -> bool)
  (q : T -> bool) (l : list T) :
  (forall x, p (f x) = q x) -> filter p (map f l) = map f (filter q l).
Proof.
  intros Hpq. induction l as [|x l IH]; [reflexivity|].
  cbn. rewrite Hpq, IH. destruct (q x); reflexivity.
Qed.

Lemma strict_eq_one_of_fifteen (x : number) :
  let maps := [1; 2; 3; 4; 5; 6; 7; 8; 9; 10; 11; 12; 13; 14; 15]%float in
  (filter (strict_eq x) maps = [] /\ ~ In x maps)
  \/ (filter (strict_eq x) maps = [x] /\ In x maps).
Proof.
  cbv zeta.
  assert (Hnot : forall n m e,
             Prim2SF n = S754_finite false m e ->
             strict_eq x n = false -> n <> x).
  { intros n m e Hn Hneq <-. unfold strict_eq in Hneq.
    rewrite FloatAxioms.eqb_spec, Hn in Hneq. unfold SFeqb in Hneq. cbn in Hneq.
    rewrite Z.compare_refl, Pos.compare_cont_refl in Hneq. discriminate. }
  repeat match goal with
         | |- context [filter (strict_eq x) _] => cbn [filter]
         | |- context [if strict_eq x ?n then _ else _] =>
             let E := fresh "E" in
             destruct (strict_eq x n) eqn:E;
             [ eapply strict_eq_finite in E; [|reflexivity];
               subst x; right; split; [reflexivity|cbn; tauto]
             | eapply Hnot in E; [|reflexivity] ]
         end.
  left. split; [reflexivity|]. cbn. intuition.
Qed.

(** At most one button of the bar carries the class [selected]: none
    when [selectedMap] is not one of the numbers 1 to 15 (0, 16, 1.5,
    NaN, ...), and exactly the button of that map when it is. *)
Theorem TopBar_selects_at_most_one `{JsBuiltins} {A : Type}
  (selectedMap : number) (onSelectMap : number -> A) :
  let chosen :=
    filter (has_class "selected") (TopBar selectedMap onSelectMap) in
  let maps := [1; 2; 3; 4; 5; 6; 7; 8; 9; 10; 11; 12; 13; 14; 15]%float in
  (chosen = [] /\ ~ In selectedMap maps)
  \/ (map (@key A) chosen = [selectedMap]
      /\ List.length chosen = 1
      /\ In selectedMap maps).
Proof.
  cbv zeta. rewrite TopBar_as_map.
  rewrite (filter_map_pointwise _ _ (strict_eq selectedMap)).
  2: { intros n. unfold has_class. cbn [className].
       destruct (strict_eq selectedMap n); reflexivity. }
  destruct (strict_eq_one_of_fifteen selectedMap) as [[Hnone Hout]|[Hone Hin]];
    cbv zeta in *.
  - left. rewrite Hnone. split; [reflexivity|exact Hout].
  - right. rewrite Hone. split; [reflexivity|]. split; [reflexivity|exact Hin].
Qed.

(* ================================================================== *)
(** ** Choosing a placement                                            *)
(* ================================================================== *)

Lemma placementOptions_as_map `{JsBuiltins} :
  placementOptions
  = map (fun i => {| option_key := i;
                     option_value := i;
                     option_text := ToString i ++ ordinal i |})
        [1; 2; 3; 4; 5; 6; 7; 8; 9; 10; 11; 12; 13; 14; 15; 16]%float.
Proof. reflexivity. Qed.

(** The placement select offers the placements 1 to 16, in order,
    labelled 1st, 2nd, 3rd and then 4th to 16th.  Choosing an offered
    option whose text reads back as its number sets the placement to
    that number, and the select then shows it (no offered placement is
    read as the empty choice). *)
Theorem placement_option_chosen `{JsBuiltins} (w : World) (teamId : number)
  (s : State) (o : OptionElement) :
  In o placementOptions ->
  Number (chosen_value o) = option_value o ->
  let s' :=
    final_state (run w (handler teamId s (ChangePlacement (chosen_value o)))
                     s) in
  placement s' = option_value o
  /\ placement_value (render s') = Some (option_value o)
  /\ option_text o
     = (ToString (option_value o) ++ ordinal (option_value o))%string
  /\ map option_value placementOptions
     = [1; 2; 3; 4; 5; 6; 7; 8; 9; 10; 11; 12; 13; 14; 15; 16]%float
  /\ map (fun o' => ordinal (option_value o')) placementOptions
     = ["st"; "nd"; "rd"; "th"; "th"; "th"; "th"; "th"; "th"; "th"; "th";
        "th"; "th"; "th"; "th"; "th"].
Proof.
  intros Hin Hback s'. subst s'. cbn [handler call run respond apply_cmd
    final_state fst snd placement]. rewrite Hback.
  split; [reflexivity|].
  split.
  { unfold render. cbn [placement_value placement].
    rewrite placementOptions_as_map in Hin. apply in_map_iff in Hin.
    destruct Hin as (n & <- & Hn). cbn [option_value].
    cbn [In] in Hn.
    repeat (destruct Hn as [<-|Hn]; [reflexivity|]). contradiction. }
  split.
  { rewrite placementOptions_as_map in Hin. apply in_map_iff in Hin.
    destruct Hin as (n & <- & _). reflexivity. }
  split; reflexivity.
Qed.

Lemma placement_option_chosen_witness :
  placement_value
    (render
       (final_state
          (run good_world
               (@handler decimalBuiltins 7%float initialState
                  (ChangePlacement "3"))
               initialState)))
  = Some 3%float.
Proof.
  exact (proj1 (proj2
    (@placement_option_chosen decimalBuiltins good_world 7%float initialState
       (mkOption 3%float 3%float "3rd")
       (or_intror (or_intror (or_introl eq_refl))) eq_refl))).
Defined.

(* ================================================================== *)
(** ** A submission ends, whatever happens in between                  *)
(* ================================================================== *)

(** A submission that passes validation parks at the upload.  Whatever
    the upload answers, whenever it answers and whatever the cells are
    by then, the handler either ends with [submitting] false (the
    answer was an error) or parks once more, at the insert; and whatever
    the insert answers, and whenever, the handler then ends with
    [submitting] false.  So the flag comes down after at most two
    answers, and nothing of the submission stays parked. *)
Theorem submission_ends_after_two_answers `{JsBuiltins} (w1 : World)
  (teamId : number) (s s1 : State) (image : File) :
  imageFile s = Some image ->
  existsb isNaN (killsNums (playerKills s)) = false ->
  exists k1,
    snd (advance w1 (handleSubmit teamId s) s1)
    = Some (mkTask (StorageUpload "scoreboards"
                      (fileName teamId (mapNumber s) (now w1)) image true)
                   k1)
    /\ forall (w2 : World) (r1 : Settled (option JsError)) (s2 : State),
         match snd (advance w2 (k1 r1) s2) with
         | None =>
             error_of r1 <> None
             /\ submitting (fst (fst (advance w2 (k1 r1) s2))) = false
         | Some t =>
             error_of r1 = None
             /\ is_network t = true
             /\ submitting (fst (fst (advance w2 (k1 r1) s2))) = submitting s2
             /\ forall (w3 : World) (r2 : task_type t) (s3 : State),
                  snd (advance w3 (task_cont t r2) s3) = None
                  /\ submitting (fst (fst (advance w3 (task_cont t r2) s3)))
                     = false
         end.
Proof.
  intros Himg Hok. unfold handleSubmit. rewrite Himg. cbv zeta. rewrite Hok.
  cbn. eexists. split; [reflexivity|].
  intros w2 [[e1|]|e1] s2; cbn; try (split; [discriminate|reflexivity]).
  split; [reflexivity|]. split; [reflexivity|]. split; [reflexivity|].
  intros w3 [[e2|]|e2] s3; cbn; split; reflexivity.
Qed.

Lemma submission_ends_after_two_answers_witness :
  snd (advance good_world (@handleSubmit decimalBuiltins 7%float filled_form)
               filled_form)
  <> None.
Proof.
  destruct (@submission_ends_after_two_answers decimalBuiltins good_world
              7%float filled_form filled_form compressed_screenshot
              eq_refl eq_refl) as (k1 & Hpark & _).
  rewrite Hpark. discriminate.
Defined.

(* ================================================================== *)
(** ** The name of the uploaded object                                 *)
(* ================================================================== *)

Lemma string_append_assoc (a b c : string) :
  ((a ++ b) ++ c)%string = (a ++ (b ++ c))%string.
Proof. induction a as [|ch a IH]; cbn; [reflexivity|]. rewrite IH. reflexivity. Qed.

(** Every upload goes to the bucket [scoreboards] with [upsert] set,
    under a name that ends in [.jpg].  This also holds when the
    compression failed and the file picked is uploaded as it is,
    whatever its type. *)
Theorem uncompressed_file_uploaded_as_jpg `{JsBuiltins} (w : World)
  (teamId : number) (s : State) (file : File) (rest : list File)
  (e : JsError) :
  imageCompression w file compressionOptions = Rejected e ->
  existsb isNaN (killsNums (playerKills s)) = false ->
  exists stem,
    uploads
      (trace_of
         (run w (handleSubmit teamId
                   (final_state (run w (handleFileChange (Some (file :: rest)))
                                     s)))
              (final_state (run w (handleFileChange (Some (file :: rest)))
                                s))))
    = [("scoreboards", (stem ++ ".jpg")%string, file, true)].
Proof.
  intros Hrej Hok. rewrite run_handleFileChange, Hrej. cbn [final_state fst snd].
  set (s1 := mkState (Some file) (createObjectURL w file) (mapNumber s)
                     (placement s) (playerKills s) (submitting s)).
  assert (Himg : imageFile s1 = Some file) by reflexivity.
  assert (Hok1 : existsb isNaN (killsNums (playerKills s1)) = false)
    by exact Hok.
  exists ("team" ++ ToString teamId ++ "_map" ++ ToString (mapNumber s1)
                 ++ "_" ++ ToString (now w))%string.
  assert (Hname : (("team" ++ ToString teamId ++ "_map"
                           ++ ToString (mapNumber s1)
                           ++ "_" ++ ToString (now w)) ++ ".jpg")%string
                  = fileName teamId (mapNumber s1) (now w)).
  { unfold fileName. rewrite !string_append_assoc. reflexivity. }
  rewrite Hname.
  destruct (error_of (upload w "scoreboards"
              (fileName teamId (mapNumber s1) (now w)) file true))
    as [e1|] eqn:Hup.
  { rewrite (handleSubmit_upload_error _ _ _ Himg Hok1 Hup). reflexivity. }
  destruct (error_of (insert w "submissions"
              (submission_row teamId s1 (killsNums (playerKills s1))
                 (getPublicUrl w "scoreboards"
                    (fileName teamId (mapNumber s1) (now w))))))
    as [e2|] eqn:Hins.
  - rewrite (handleSubmit_insert_error _ _ _ Himg Hok1 Hup Hins). reflexivity.
  - rewrite (handleSubmit_success _ _ _ Himg Hok1 Hup Hins). reflexivity.
Qed.

Lemma uncompressed_file_uploaded_as_jpg_witness :
  exists stem,
    uploads
      (trace_of
         (run no_compression
              (@handleSubmit decimalBuiltins 7%float
                 (final_state (run no_compression
                                   (handleFileChange (Some [screenshot]))
                                   initialState)))
              (final_state (run no_compression
                                (handleFileChange (Some [screenshot]))
                                initialState))))
    = [("scoreboards", (stem ++ ".jpg")%string, screenshot, true)].
Proof.
  exact (@uncompressed_file_uploaded_as_jpg decimalBuiltins no_compression
           7%float initialState screenshot [] (mkError "out of memory")
           eq_refl eq_refl).
Defined.

(* ================================================================== *)
(** ** No preview without an image                                     *)
(* ================================================================== *)

Lemma holds_between_bindP (I : State -> Prop) (p : Prog unit)
  (f : unit -> Prog unit) (Q : State -> Prop) (s : State) :
  holds_between I p (fun s' => holds_between I (f tt) Q s') s ->
  holds_between I (bindP p f) Q s.
Proof.
  revert s. induction p as [[]|e|R c k IH]; intros s Hp; cbn in *; auto.
  destruct (is_promise c).
  - destruct Hp as [HI Hk]. split; [exact HI|]. intros r s' Hs'.
    apply IH, Hk, Hs'.
  - intros r. apply IH, Hp.
Qed.

Lemma advance_holds_between (I : State -> Prop) (w : World)
  (p : Prog unit) (s : State) :
  holds_between I p I s ->
  I (fst (fst (advance w p s)))
  /\ match snd (advance w p s) with
     | Some t => forall r s', I s' -> holds_between I (task_cont t r) I s'
     | None => True
     end.
Proof.
  revert s. induction p as [a|e|R c k IH]; intros s Hp; cbn in *; auto.
  destruct (is_promise c); [exact Hp|].
  specialize (IH (respond w c) (apply_cmd c s) (Hp (respond w c))).
  destruct (advance w (k (respond w c)) (apply_cmd c s)) as [[s' tr] t].
  exact IH.
Qed.

(** A property of the cells that every handler keeps between its awaits
    holds on every page the component can reach. *)
Lemma reachable_page_keeps `{JsBuiltins} (I : State -> Prop)
  (teamId : number) :
  I initialState ->
  (forall a s s0, I s0 -> holds_between I (handler teamId s a) I s0) ->
  forall pg, reachable teamId pg -> page_keeps I pg.
Proof.
  intros Hinit Hhandlers pg Hreach.
  induction Hreach as [|pg pg' _ [Hcells Htasks] Hstep].
  - split; [exact Hinit|constructor].
  - destruct Hstep as [pg a w Hen|pg i w Hi].
    + pose proof (advance_holds_between I w _ (cells pg)
                    (Hhandlers a (cells pg) (cells pg) Hcells))
        as [Hafter Hpark].
      unfold start.
      destruct (advance w (handler teamId (cells pg) a) (cells pg))
        as [[s' tr] t].
      cbn [fst snd] in Hafter, Hpark. split; [exact Hafter|].
      cbn [pending]. apply Forall_app. split; [exact Htasks|].
      destruct t as [t|]; constructor; auto.
    + unfold settle.
      destruct (nth_error (pending pg) i) as [t|] eqn:Hnth;
        [|split; assumption].
      pose proof (nth_error_firstn_skipn _ _ Hnth) as Hpend.
      rewrite Hpend in Htasks.
      apply Forall_app in Htasks as [Hbefore Hrest].
      apply Forall_cons_iff in Hrest as [Ht Hafter].
      pose proof (advance_holds_between I w _ (cells pg)
                    (Ht (respond w (task_cmd t)) (cells pg) Hcells))
        as [Hnow Hpark].
      destruct (advance w (task_cont t (respond w (task_cmd t))) (cells pg))
        as [[s' tr] t'].
      cbn [fst snd] in Hnow, Hpark. split; [exact Hnow|].
      cbn [pending]. apply Forall_app. split; [exact Hbefore|].
      apply Forall_app. split; [|exact Hafter].
      destruct t' as [t'|]; constructor; auto.
Qed.

Lemma processPastedImage_keeps_preview (file : File) (Q : State -> Prop)
  (s : State) :
  no_stale_preview s ->
  (forall s', imageFile s' <> None -> Q s') ->
  holds_between no_stale_preview (processPastedImage file) Q s.
Proof.
  intros Hs HQ. cbn. split; [exact Hs|].
  intros [compressedFile|e] s' _; cbn; intros; apply HQ; cbn; discriminate.
Qed.

Lemma paste_loop_keeps_preview (prevent : bool)
  (items : list DataTransferItem) (s : State) :
  no_stale_preview s ->
  holds_between no_stale_preview
    (for_each items (fun item =>
       if includes "image" (item_type item) then
         match getAsFile item with
         | Some file =>
             if prevent then bindP (call PreventDefault)
                                   (fun _ => processPastedImage file)
             else processPastedImage file
         | None => Ret tt
         end
       else Ret tt))
    no_stale_preview s.
Proof.
  revert s. induction items as [|item items IH]; intros s Hs; [exact Hs|].
  cbn [for_each]. apply holds_between_bindP.
  destruct (includes "image" (item_type item)); [|exact (IH s Hs)].
  destruct (getAsFile item) as [file|]; [|exact (IH s Hs)].
  assert (Hnext : forall s', imageFile s' <> None ->
            holds_between no_stale_preview
              (for_each items (fun item0 =>
                 if includes "image" (item_type item0) then
                   match getAsFile item0 with
                   | Some file0 =>
                       if prevent
                       then bindP (call PreventDefault)
                                  (fun _ => processPastedImage file0)
                       else processPastedImage file0
                   | None => Ret tt
                   end
                 else Ret tt)) no_stale_preview s').
  { intros s' Hsome. apply IH. intros Hnone. contradiction. }
  destruct prevent.
  - cbn [bindP call holds_between is_promise]. intros [].
    apply processPastedImage_keeps_preview; [exact Hs|exact Hnext].
  - apply processPastedImage_keeps_preview; [exact Hs|exact Hnext].
Qed.

Lemma handler_keeps_preview `{JsBuiltins} (teamId : number) (a : Action)
  (s s0 : State) :
  no_stale_preview s0 ->
  holds_between no_stale_preview (handler teamId s a) no_stale_preview s0.
Proof.
  intros Hs0. destruct a; cbn [handler].
  - cbn. intros []. exact Hs0.
  - cbn. intros []. exact Hs0.
  - cbn. intros []. exact Hs0.
  - unfold handleFileChange. destruct (first_file files) as [file|];
      [|exact Hs0].
    cbn. split; [exact Hs0|].
    intros [compressedFile|e] s' _; cbn; intros; intros Hnone;
      discriminate Hnone.
  - unfold handleTextareaPaste. destruct (clipboardData e) as [items|];
      [|exact Hs0].
    exact (paste_loop_keeps_preview true items Hs0).
  - unfold handleGlobalPaste. destruct activeIsTextarea; [exact Hs0|].
    destruct (clipboardData e) as [items|]; [|exact Hs0].
    exact (paste_loop_keeps_preview false items Hs0).
  - unfold handleSubmit. destruct (imageFile s) as [image|];
      [|cbn; intros [] []; exact Hs0].
    cbv zeta. destruct (existsb isNaN (killsNums (playerKills s)));
      [cbn; intros [] []; exact Hs0|].
    cbn. intros [] [] stamp. split; [exact Hs0|].
    intros [[e1|]|e1] s1 Hs1; cbn; try (intros [] [] []; exact Hs1).
    intros url. split; [exact Hs1|].
    intros [[e2|]|e2] s2 Hs2; cbn; try (intros [] [] []; exact Hs2).
    intros [] [] [] [] [] [] [] _. reflexivity.
Qed.

(** On every page the component can reach, a form without an image
    file has no preview: nothing is shown under [Preview] and the paste
    area invites to paste. *)
Theorem no_preview_without_image `{JsBuiltins} (teamId : number) (pg : Page) :
  reachable teamId pg ->
  imageFile (cells pg) = None ->
  imagePreview (cells pg) = ""
  /\ preview_src (render (cells pg)) = None
  /\ pastePlaceholder (render (cells pg))
     = "Click here and press Ctrl+V to paste your scoreboard screenshot...".
Proof.
  intros Hreach Hnone.
  assert (Hkeeps : page_keeps no_stale_preview pg).
  { apply (@reachable_page_keeps _ no_stale_preview teamId);
      [| |exact Hreach].
    - intros _. reflexivity.
    - intros a s s0. apply handler_keeps_preview. }
  destruct Hkeeps as [Hcells _]. specialize (Hcells Hnone).
  unfold render. cbn [preview_src pastePlaceholder]. rewrite Hcells.
  repeat split.
Qed.

Lemma submitted_page_reachable :
  @reachable decimalBuiltins 7%float submitted_page.
Proof.
  apply reachable_step with (pg := settle good_world 0 submitting_page).
  - apply reachable_step with (pg := submitting_page).
    + exact submitting_page_reachable.
    + apply step_settle. vm_compute. lia.
  - apply step_settle. vm_compute. lia.
Qed.

Lemma no_preview_without_image_witness :
  imagePreview (cells submitted_page) = ""
  /\ preview_src (render (cells submitted_page)) = None
  /\ pastePlaceholder (render (cells submitted_page))
     = "Click here and press Ctrl+V to paste your scoreboard screenshot...".
Proof.
  exact (@no_preview_without_image decimalBuiltins 7%float submitted_page
           submitted_page_reachable eq_refl).
Defined.

(* ================================================================== *)
(** ** Only a submission reaches the backend                           *)
(* ================================================================== *)

(** Editing a field, picking a file and pasting never call the backend
    (no upload, no public URL lookup, no insert), never show an alert
    and leave the [submitting] flag as it is, in every world: only
    [handleSubmit] does any of these. *)
Theorem only_submit_reaches_backend `{JsBuiltins} (w : World)
  (teamId : number) (s s0 : State) (a : Action) :
  a <> Submit ->
  backend_calls (trace_of (run w (handler teamId s a) s0)) = []
  /\ alerts (trace_of (run w (handler teamId s a) s0)) = []
  /\ submitting (final_state (run w (handler teamId s a) s0)) = submitting s0.
Proof.
  intros Ha. destruct a; cbn [handler]; try contradiction;
    try (repeat split; fail).
  - destruct files as [[|file rest]|]; try (repeat split; fail).
    rewrite run_handleFileChange.
    destruct (imageCompression w file compressionOptions); repeat split.
  - destruct (clipboardData e) as [items|] eqn:Hdata.
    + rewrite (run_handleTextareaPaste w e s0 Hdata).
      destruct (paste_trace_facts w true (pasted_images items))
        as (_ & _ & Halerts & Hcalls).
      cbv zeta in *. unfold trace_of, final_state. cbn [fst snd].
      split; [exact Hcalls|]. split; [exact Halerts|].
      destruct (rev (pasted_images items)); reflexivity.
    + unfold handleTextareaPaste. rewrite Hdata. repeat split.
  - destruct activeIsTextarea; [repeat split|].
    destruct (clipboardData e) as [items|] eqn:Hdata.
    + rewrite (run_handleGlobalPaste w e s0 Hdata).
      destruct (paste_trace_facts w false (pasted_images items))
        as (_ & _ & Halerts & Hcalls).
      cbv zeta in *. unfold trace_of, final_state. cbn [fst snd].
      split; [exact Hcalls|]. split; [exact Halerts|].
      destruct (rev (pasted_images items)); reflexivity.
    + unfold handleGlobalPaste. rewrite Hdata. repeat split.
Qed.

Lemma only_submit_reaches_backend_witness :
  backend_calls
    (trace_of (run good_world
                   (@handler decimalBuiltins 7%float filled_form
                      (ChangeFile (Some [screenshot])))
                   filled_form)) = [].
Proof.
  exact (proj1
    (@only_submit_reaches_backend decimalBuiltins good_world 7%float
       filled_form filled_form (ChangeFile (Some [screenshot]))
       ltac:(discriminate))).
Defined.

(* ================================================================== *)
(** ** A paste into the paste area is handled once                     *)
(* ================================================================== *)


